(** * Immo Eliza cleaning pipeline: a model of [scr/cleaning.py]

    The script is one function, [clean_immo_data], a straight sequence of
    pandas calls on a DataFrame.  The model below follows it statement by
    statement.  What Python, pandas and numpy do inside each call is modelled
    by the functions of the first sections (CPython 3, pandas 2.x with the
    classic [object] dtype for text columns, numpy 1.22 or later):

    - a float64 value is a primitive binary64 float, the null marker of
      numeric columns being [nan];
    - a Python string is the list of its code points;
    - a text ([object]) column holds Python strings or the null marker NaN,
      which is what [pd.read_csv] produces;
    - a numeric column is represented by its float64 values: an int64 column
      by the floats of its integers (exact below 2^53); boolean and datetime
      columns are not modelled;
    - what depends on the installation is a parameter of the development, the
      [runtime]: the decimal digits of the interpreter's Unicode database,
      its limit on the length of integer literals, and the conversion
      [pd.to_numeric] makes of a text column.

    The three lines after the function read a CSV file, call the function and
    write its result; files are outside the model. *)

From Stdlib Require Import ZArith Floats Uint63 Ascii String.
From stdpp Require Import base option list strings gmap pretty.

Local Open Scope Z_scope.

(** ** Errors *)

(** [KeyError] is Python's; [CastError] stands for the [ValueError],
    [TypeError] or [OverflowError] a failed dtype conversion raises;
    [TypeError] is raised by arithmetic on a text column. *)
Inductive error :=
| KeyError (col : string)
| CastError (col : string)
| TypeError (col : string).

Inductive result (A : Type) :=
| Ok (a : A)
| Raise (e : error).
Arguments Ok {A} a.
Arguments Raise {A} e.

#[global] Instance result_ret : MRet result := λ A a, Ok a.
#[global] Instance result_bind : MBind result := λ A B f r,
  match r with Ok a => f a | Raise e => Raise e end.

Definition is_ok {A} (r : result A) : bool :=
  match r with Ok _ => true | Raise _ => false end.

(** ** Python strings *)

Module Py.

(** A [str] is the sequence of its code points. *)
Definition str : Type := list Z.

(** The string a sequence of UTF-8 bytes encodes (used for the literals of
    this file, which are well formed). *)
Fixpoint decode_utf8 (bytes : list Z) : str :=
  match bytes with
  | [] => []
  | a :: l1 =>
      if a <? 128 then a :: decode_utf8 l1
      else
        match l1 with
        | [] => [a]
        | b :: l2 =>
            if a <? 224
            then ((a - 192) * 64 + (b - 128)) :: decode_utf8 l2
            else
              match l2 with
              | [] => [a; b]
              | c :: l3 =>
                  if a <? 240
                  then (((a - 224) * 64 + (b - 128)) * 64 + (c - 128))
                         :: decode_utf8 l3
                  else
                    match l3 with
                    | [] => [a; b; c]
                    | d :: l4 =>
                        ((((a - 240) * 64 + (b - 128)) * 64 + (c - 128)) * 64
                         + (d - 128)) :: decode_utf8 l4
                    end
              end
        end
  end.

Definition of_bytes (s : string) : str :=
  decode_utf8 ((λ a, Z.of_N (N_of_ascii a)) <$> list_ascii_of_string s).

(** [str.isspace] on one character ([Py_UNICODE_ISSPACE]): TAB, LF, VT, FF,
    CR, FS, GS, RS, US, the space, NEL, the no-break space, the Ogham space
    mark, EN QUAD to HAIR SPACE, the line and paragraph separators, the narrow
    no-break space, the medium mathematical space and the ideographic
    space. *)
Definition is_space (c : Z) : bool :=
  (9 <=? c) && (c <=? 13) || (28 <=? c) && (c <=? 32) ||
  (c =? 133) || (c =? 160) || (c =? 5760) ||
  (8192 <=? c) && (c <=? 8202) ||
  (c =? 8232) || (c =? 8233) || (c =? 8239) || (c =? 8287) || (c =? 12288).

(** C's [isspace] in the C locale ([Py_ISSPACE]): TAB, LF, VT, FF, CR and the
    space. *)
Definition is_c_space (c : Z) : bool :=
  (9 <=? c) && (c <=? 13) || (c =? 32).

Fixpoint lstrip (space : Z → bool) (s : str) : str :=
  match s with
  | [] => []
  | a :: s' => if space a then lstrip space s' else s
  end.

Fixpoint rstrip (space : Z → bool) (s : str) : str :=
  match s with
  | [] => []
  | a :: s' =>
      match rstrip space s' with
      | [] => if space a then [] else [a]
      | r => a :: r
      end
  end.

(** [s.strip()] *)
Definition strip (s : str) : str := rstrip is_space (lstrip is_space s).

Definition digit_of (c : Z) : option Z :=
  if (48 <=? c) && (c <=? 57) then Some (c - 48) else None.

(** The digit part of an integer literal: digits, with single underscores
    between digits; the value and the number of digits. *)
Fixpoint digits_value (acc count : Z) (after_digit : bool) (s : str)
  : option (Z * Z) :=
  match s with
  | [] => if after_digit then Some (acc, count) else None
  | c :: s' =>
      match digit_of c with
      | Some d => digits_value (10 * acc + d) (count + 1) true s'
      | None =>
          if (c =? 95) && after_digit
          then digits_value acc count false s'
          else None
      end
  end.

(** What [int] first makes of one character of a string
    ([_PyUnicode_TransformDecimalAndSpaceToASCII]): ASCII is kept, any other
    whitespace becomes a space, a decimal digit of another script becomes its
    ASCII digit, anything else a question mark.  [decimal] is
    [Py_UNICODE_TODECIMAL]. *)
Definition to_ascii (decimal : Z → option Z) (c : Z) : Z :=
  if c <? 127 then c
  else if is_space c then 32
  else match decimal c with Some d => 48 + d | None => 63 end.

(** [int(s)] for a string ([PyLong_FromString], base 10): whitespace around,
    an optional sign, the digits; more than [max_str_digits] digits are
    refused when that limit is set and above 640.  [None] is the
    [ValueError]. *)
Definition int_of_str (decimal : Z → option Z) (max_str_digits : Z) (s : str)
  : option Z :=
  let a := rstrip is_c_space (lstrip is_c_space (to_ascii decimal <$> s)) in
  let '(negative, digits) :=
    match a with
    | c :: r =>
        if c =? 45 then (true, r) else if c =? 43 then (false, r)
        else (false, a)
    | [] => (false, a)
    end in
  '(v, n) ← digits_value 0 0 false digits;
  if (640 <? n) && (0 <? max_str_digits) && (max_str_digits <? n) then None
  else Some (if negative : bool then - v else v).

(** [str(z)] for an integer. *)
Definition str_of_int (z : Z) : str := of_bytes (pretty z).

End Py.

(** A string literal of this file as a Python string. *)
Definition utf8 (s : string) : Py.str := Py.of_bytes s.

(** ** float64 *)

Module F64.

Definition isnan (x : float) : bool := PrimFloat.is_nan x.

(** [x == 0] (either sign) and [np.isinf(x)]. *)
Definition iszero (x : float) : bool := (x =? 0)%float.
Definition isinf (x : float) : bool := (abs x =? infinity)%float.

(** Equality of the hash table behind [duplicated]: [==], and all NaN equal. *)
Definition key_eqb (x y : float) : bool :=
  (x =? y)%float || (isnan x && isnan y).

(** The float of an integer below 2^63 in absolute value. *)
Definition of_Z (z : Z) : float :=
  match z with
  | Z0 => 0%float
  | Zpos _ => PrimFloat.of_uint63 (Uint63.of_Z z)
  | Zneg _ => (- PrimFloat.of_uint63 (Uint63.of_Z (- z)))%float
  end.

(** The integer a float is equal to, when it is one. *)
Definition to_Z_exact (x : float) : option Z :=
  match Prim2SF x with
  | S754_zero _ => Some 0
  | S754_finite s m e =>
      if 0 <=? e then Some (cond_Zopp s (Z.pos m * 2 ^ e))
      else if Z.pos m mod 2 ^ (- e) =? 0
           then Some (cond_Zopp s (Z.pos m / 2 ^ (- e)))
           else None
  | _ => None
  end.

(** [floor] of a finite float (used on non-negative indices only). *)
Definition floor (x : float) : Z :=
  match Prim2SF x with
  | S754_finite s m e =>
      if 0 <=? e then cond_Zopp s (Z.pos m * 2 ^ e)
      else if s then - ((Z.pos m + 2 ^ (- e) - 1) / 2 ^ (- e))
           else Z.pos m / 2 ^ (- e)
  | _ => 0
  end.

Definition in_int64 (z : Z) : bool := (- 2 ^ 63 <=? z) && (z <? 2 ^ 63).

End F64.

(** ** Columns and frames *)

(** A column is a pandas Series without its index: [ObjCol] has dtype
    [object] and holds strings, [None] being the null marker NaN; [NumCol] has
    a numeric dtype, its values read as float64. *)
Inductive column :=
| ObjCol (cells : list (option Py.str))
| NumCol (cells : list float).

(** A DataFrame: the row labels and the columns by name.  A column holds one
    cell per row label. *)
Record DataFrame := mkDataFrame {
  index : list nat;
  columns : gmap string column
}.

(** A cell as a Python object, the way [duplicated] and [isna] see it. *)
Inductive cell :=
| Text (s : Py.str)
| Number (x : float).

Definition obj_cell (c : option Py.str) : cell :=
  match c with Some s => Text s | None => Number nan end.

Definition cells (c : column) : list cell :=
  match c with
  | ObjCol l => obj_cell <$> l
  | NumCol l => Number <$> l
  end.

Definition cell_isna (c : cell) : bool :=
  match c with Text _ => false | Number x => F64.isnan x end.

(** Equality of two cells as keys of pandas' hash tables. *)
Definition cell_eqb (a b : cell) : bool :=
  match a, b with
  | Text s, Text t => bool_decide (s = t)
  | Number x, Number y => F64.key_eqb x y
  | _, _ => false
  end.

(** *** Boolean indexing *)

(** [l[mask]]: the elements of [l] at the positions where [mask] is true. *)
Fixpoint select {A} (mask : list bool) (l : list A) : list A :=
  match mask, l with
  | b :: mask', x :: l' => if b then x :: select mask' l' else select mask' l'
  | _, _ => []
  end.

Definition col_select (mask : list bool) (c : column) : column :=
  match c with
  | ObjCol l => ObjCol (select mask l)
  | NumCol l => NumCol (select mask l)
  end.

(** [df[mask]]: rows keep their labels. *)
Definition df_select (mask : list bool) (df : DataFrame) : DataFrame :=
  {| index := select mask (index df);
     columns := col_select mask <$> columns df |}.

(** [df[name]] *)
Definition get_col (name : string) (df : DataFrame) : result column :=
  match columns df !! name with
  | Some c => Ok c
  | None => Raise (KeyError name)
  end.

(** [df[name] = c] *)
Definition set_col (name : string) (c : column) (df : DataFrame) : DataFrame :=
  {| index := index df; columns := <[name := c]> (columns df) |}.

(** *** Series methods *)

(** [series.isna()] and [series.notna()] *)
Definition isna (c : column) : list bool := cell_isna <$> cells c.
Definition notna (c : column) : list bool := negb <$> isna c.

(** [series.astype(str)] on one cell of an object column: NaN is rendered as
    the text "nan". *)
Definition astype_str (c : option Py.str) : Py.str :=
  match c with Some s => s | None => utf8 "nan" end.

(** The replacement [{"": np.nan}] on one cell. *)
Definition replace_empty (c : option Py.str) : option Py.str :=
  match c with
  | Some s => if bool_decide (s = []) then None else Some s
  | None => None
  end.

Definition all_null (l : list (option Py.str)) : bool :=
  forallb (λ c, match c with None => true | Some _ => false end) l.

(** What [replace] makes of the object array it has filled
    ([Block.convert]): an array that holds nothing but NaN, and at least one,
    is downcast to float64; strings keep it [object]. *)
Definition convert (l : list (option Py.str)) : column :=
  match l with
  | [] => ObjCol []
  | _ :: _ => if all_null l then NumCol ((λ _, nan) <$> l) else ObjCol l
  end.

(** [series.astype(str).str.strip()] on one cell, and with the replacement
    [{"": np.nan}]. *)
Definition strip_cell (c : option Py.str) : option Py.str :=
  Some (Py.strip (astype_str c)).

Definition normalize_cell (c : option Py.str) : option Py.str :=
  replace_empty (strip_cell c).

(** [series.replace({"": np.nan})]; a numeric column cannot hold the empty
    string and is left as it is. *)
Definition col_replace_empty (c : column) : column :=
  match c with
  | ObjCol l => convert (replace_empty <$> l)
  | NumCol l => NumCol l
  end.

(** [series.duplicated()] (keep="first"): a cell is a duplicate when an equal
    cell was seen before it. *)
Fixpoint duplicated_from (seen : list cell) (l : list cell) : list bool :=
  match l with
  | [] => []
  | x :: l' => existsb (cell_eqb x) seen :: duplicated_from (x :: seen) l'
  end.

Definition duplicated (c : column) : list bool := duplicated_from [] (cells c).

(** [df.drop_duplicates(subset=[key])] *)
Definition drop_duplicates (key : string) (df : DataFrame) : result DataFrame :=
  c ← get_col key df;
  Ok (df_select (negb <$> duplicated c) df).

(** [df.dropna(subset=[a, b])] *)
Definition dropna2 (a b : string) (df : DataFrame) : result DataFrame :=
  ca ← get_col a df;
  cb ← get_col b df;
  Ok (df_select (zip_with andb (notna ca) (notna cb)) df).

(** ** float64 Series *)

Module Series.

(** The values pandas hands to [np.percentile]: the non-null ones. *)
Definition valid (s : list float) : list float :=
  List.filter (λ x, negb (F64.isnan x)) s.

Fixpoint insert_sorted (x : float) (l : list float) : list float :=
  match l with
  | [] => [x]
  | y :: l' => if (x <=? y)%float then x :: l else y :: insert_sorted x l'
  end.

Definition sort (l : list float) : list float := foldr insert_sorted [] l.

(** numpy's [_lerp]. *)
Definition lerp (a b t : float) : float :=
  if (0.5 <=? t)%float then (b - (b - a) * (1 - t))%float
  else (a + (b - a) * t)%float.

(** [np.percentile(values, 100 * q, method="linear")] on sorted values:
    interpolation at the virtual index [(n - 1) * q] between the values at
    its floor and the next; an index at or above [n - 1] takes the last value
    twice (numpy's index [-1]), an index below 0 the first. *)
Definition percentile_linear (sorted : list float) (q : float) : float :=
  match sorted with
  | [] => nan
  | x0 :: _ =>
      let n := Z.of_nat (length sorted) in
      let virtual := (F64.of_Z (n - 1) * q)%float in
      let at_ (i : Z) := default x0 (sorted !! Z.to_nat i) in
      if (F64.of_Z (n - 1) <=? virtual)%float then
        lerp (at_ (n - 1)) (at_ (n - 1)) (virtual - (- 1))%float
      else if (virtual <? 0)%float then
        lerp x0 x0 (virtual - 0)%float
      else
        let i := F64.floor virtual in
        lerp (at_ i) (at_ (i + 1)) (virtual - F64.of_Z i)%float
  end.

(** [series.quantile(q)], interpolation="linear", nulls skipped. *)
Definition quantile (s : list float) (q : float) : float :=
  percentile_linear (sort (valid s)) q.

(** [series.between(lower, upper)] on one value, both ends inclusive. *)
Definition between (lower upper x : float) : bool :=
  (lower <=? x)%float && (x <=? upper)%float.

(** [series.where(mask)] *)
Definition where_ (s : list float) (mask : list bool) : list float :=
  zip_with (λ x (b : bool), if b then x else nan) s mask.

(** [a / b], element-wise. *)
Definition div (a b : list float) : list float := zip_with PrimFloat.div a b.

End Series.

(** The bounds [(lower, upper)] computed by [remove_outliers]. *)
Definition iqr_bounds (series : list float) : float * float :=
  let q1 := Series.quantile series 0.25 in
  let q3 := Series.quantile series 0.75 in
  let iqr := (q3 - q1)%float in
  let lower := (q1 - 1.5 * iqr)%float in
  let upper := (q3 + 1.5 * iqr)%float in
  (lower, upper).

(** The nested function [remove_outliers] of [clean_immo_data]. *)
Definition remove_outliers (series : list float) : list float :=
  let '(lower, upper) := iqr_bounds series in
  Series.where_ series (Series.between lower upper <$> series).

(** ** The installation *)

(** What the function's result depends on beside the table. *)
Record runtime := Runtime {
  (** [Py_UNICODE_TODECIMAL]: the value of a character that is a decimal
      digit in the Unicode database of the interpreter. *)
  decimal : Z → option Z;
  (** [sys.get_int_max_str_digits()], 0 when there is no limit. *)
  int_max_str_digits : Z;
  (** The values of [pd.to_numeric(series, errors="coerce")] for a text
      column.  The result is not cell by cell: whether a literal is read as
      an integer or as a float depends on the other cells. *)
  to_numeric_obj : list (option Py.str) → list float;
  to_numeric_obj_length l : length (to_numeric_obj l) = length l
}.

(** ** Dtype conversions *)

Fixpoint traverse {A B} (f : A → result B) (l : list A) : result (list B) :=
  match l with
  | [] => Ok []
  | x :: l' => y ← f x; ys ← traverse f l'; Ok (y :: ys)
  end.

(** One cell of [series.astype("Int64")]: a null gives [<NA>] ([None]); a
    float must be equal to an integer of the int64 range; a string must be an
    integer literal for [int], of that range. *)
Definition int64_of_float (name : string) (x : float) : result (option Z) :=
  if F64.isnan x then Ok None
  else match F64.to_Z_exact x with
       | Some z => if F64.in_int64 z then Ok (Some z) else Raise (CastError name)
       | None => Raise (CastError name)
       end.

Definition int64_of_obj (R : runtime) (name : string) (c : option Py.str)
  : result (option Z) :=
  match c with
  | None => Ok None
  | Some s =>
      match Py.int_of_str (decimal R) (int_max_str_digits R) s with
      | Some z => if F64.in_int64 z then Ok (Some z) else Raise (CastError name)
      | None => Raise (CastError name)
      end
  end.

Definition astype_Int64 (R : runtime) (name : string) (c : column)
  : result (list (option Z)) :=
  match c with
  | NumCol l => traverse (int64_of_float name) l
  | ObjCol l => traverse (int64_of_obj R name) l
  end.

(** One cell of [.astype(str)] on an Int64 array. *)
Definition str_of_Int64 (z : option Z) : Py.str :=
  match z with Some z => Py.str_of_int z | None => utf8 "<NA>" end.

(** [series.astype("Int64").astype(str)] *)
Definition astype_Int64_str (R : runtime) (name : string) (c : column)
  : result column :=
  l ← astype_Int64 R name c;
  Ok (ObjCol ((λ z, Some (str_of_Int64 z)) <$> l)).

(** The float64 values of a column; arithmetic and quantiles on a text column
    raise. *)
Definition get_num (name : string) (df : DataFrame) : result (list float) :=
  c ← get_col name df;
  match c with
  | NumCol l => Ok l
  | ObjCol _ => Raise (TypeError name)
  end.

(** ** The pipeline *)

Section Pipeline.

Variable R : runtime.

(** [pd.to_numeric(series, errors="coerce")] *)
Definition to_numeric (c : column) : column :=
  match c with
  | ObjCol l => NumCol (to_numeric_obj R l)
  | NumCol l => NumCol l
  end.

(** Step 1: every object column is converted to text, stripped, and its empty
    strings are replaced by NaN. *)
Definition normalize_column (c : column) : column :=
  match c with
  | ObjCol l => convert (normalize_cell <$> l)
  | NumCol l => NumCol l
  end.

Definition strip_whitespace (df : DataFrame) : DataFrame :=
  {| index := index df; columns := normalize_column <$> columns df |}.

(** Step 3: the numeric columns, then the postal code. *)
Definition numeric_columns : list string :=
  ["price"; "living_area"; "number_rooms"; "facades"].

Definition coerce_numeric (df : DataFrame) (col : string) : result DataFrame :=
  c ← get_col col df;
  Ok (set_col col (to_numeric c) df).

Definition fix_numeric_types (df : DataFrame) : result DataFrame :=
  foldl (λ r col, df' ← r; coerce_numeric df' col) (Ok df) numeric_columns.

Definition fix_postal_code (df : DataFrame) : result DataFrame :=
  match columns df !! "postal_code" with
  | Some c =>
      c' ← astype_Int64_str R "postal_code" c;
      Ok (set_col "postal_code" c' df)
  | None => Ok df
  end.

(** Step 4 *)
Definition remove_without_province (df : DataFrame) : result DataFrame :=
  c ← get_col "province" df;
  let df := set_col "province" (col_replace_empty c) df in
  c ← get_col "province" df;
  Ok (df_select (notna c) df).

(** Step 5 *)
Definition compute_price_per_m2 (df : DataFrame) : result DataFrame :=
  price ← get_num "price" df;
  living_area ← get_num "living_area" df;
  Ok (set_col "price_per_m2" (NumCol (Series.div price living_area)) df).

(** Step 6: [df[name] = remove_outliers(df[name])] *)
Definition null_outliers (name : string) (df : DataFrame) : result DataFrame :=
  s ← get_num name df;
  Ok (set_col name (NumCol (remove_outliers s)) df).

Definition clean_immo_data (df : DataFrame) : result DataFrame :=
  let df := strip_whitespace df in
  df ← drop_duplicates "property_id" df;
  df ← fix_numeric_types df;
  df ← fix_postal_code df;
  df ← remove_without_province df;
  df ← compute_price_per_m2 df;
  df ← null_outliers "price" df;
  df ← null_outliers "living_area" df;
  dropna2 "price" "living_area" df.

End Pipeline.
(** ** A runtime for the examples

    The examples need one [runtime].  Its conversion reads plain decimal
    literals, [sign? digits (. digits)?], each as the quotient of two
    integers, which is the value [pd.to_numeric] gives for literals of at most
    15 significant digits, and gives NaN for any other text; pandas reads
    more literals than these (exponents, infinities), and the examples hold
    none of them.  A column of integer literals alone is an integer column,
    where the literal -0 is the integer 0.  The theorems hold for every
    runtime. *)

Fixpoint decimal_digits (acc : Z) (scale : Z) (seen_dot any : bool) (s : Py.str)
  : option (Z * Z * bool) :=
  match s with
  | [] => if any then Some (acc, scale, seen_dot) else None
  | c :: s' =>
      match Py.digit_of c with
      | Some d =>
          decimal_digits (10 * acc + d) (if seen_dot then 10 * scale else scale)
            seen_dot true s'
      | None =>
          if (c =? 46) && negb seen_dot
          then decimal_digits acc scale true any s'
          else None
      end
  end.

(** The float of a literal, and whether the literal has a decimal point. *)
Definition decimal_float (s : Py.str) : option (float * bool) :=
  let '(neg, body) :=
    match Py.strip s with
    | c :: r =>
        if c =? 45 then (true, r) else if c =? 43 then (false, r)
        else (false, c :: r)
    | [] => (false, [])
    end in
  '(m, scale, dot) ← decimal_digits 0 1 false false body;
  if (2 ^ 53 <=? m) || (2 ^ 53 <=? scale) then None
  else
    let x := (F64.of_Z m / F64.of_Z scale)%float in
    Some (if neg : bool then (- x)%float else x, dot).

Definition decimal_cell (c : option Py.str) : option (float * bool) :=
  match c with Some s => decimal_float s | None => None end.

Definition decimal_column (l : list (option Py.str)) : list float :=
  let parsed := decimal_cell <$> l in
  if forallb (λ p, match p with Some (_, false) => true | _ => false end) parsed
  then (λ p, match p with
             | Some (x, _) => if F64.iszero x then 0%float else x
             | None => nan
             end) <$> parsed
  else (λ p, match p with Some (x, _) => x | None => nan end) <$> parsed.

Definition decimal_column_length (l : list (option Py.str)) :
  length (decimal_column l) = length l :=
  match forallb (λ p, match p with Some (_, false) => true | _ => false end)
          (decimal_cell <$> l) as b
  return length (if b then _ else _) = length l with
  | true => eq_trans (length_fmap _ _) (length_fmap _ _)
  | false => eq_trans (length_fmap _ _) (length_fmap _ _)
  end.

(** The zero of each run of ten decimal digits of Unicode 14.0, the database
    of CPython 3.11. *)
Definition unicode_14_zeros : list Z :=
  [48; 1632; 1776; 1984; 2406; 2534; 2662; 2790; 2918; 3046; 3174; 3302;
   3430; 3558; 3664; 3792; 3872; 4160; 4240; 6112; 6160; 6470; 6608; 6784;
   6800; 6992; 7088; 7232; 7248; 42528; 43216; 43264; 43472; 43504; 43600;
   44016; 65296; 66720; 68912; 69734; 69872; 69942; 70096; 70384; 70736;
   70864; 71248; 71360; 71472; 71904; 72016; 72784; 73040; 73120; 92768;
   92864; 93008; 120782; 120792; 120802; 120812; 120822; 123200; 123632;
   125264; 130032].

Definition unicode_14_decimal (c : Z) : option Z :=
  (λ z, c - z) <$> find (λ z, (z <=? c) && (c <=? z + 9)) unicode_14_zeros.

(** CPython 3.11 with its default limit on integer literals, and the
    conversion above for [pd.to_numeric]. *)
Definition plain : runtime :=
  {| decimal := unicode_14_decimal;
     int_max_str_digits := 4300;
     to_numeric_obj := decimal_column;
     to_numeric_obj_length := decimal_column_length |}.

(** ** Vocabulary of the statements *)

(** The mask [series.between(lower, upper)] with the bounds of the series
    itself: the values [remove_outliers] keeps. *)
Definition inliers (series : list float) : list bool :=
  Series.between (iqr_bounds series).1 (iqr_bounds series).2 <$> series.

(** The frame steps 5 to 7 make of a frame whose two fields are [price] and
    [area]. *)
Definition after_outliers (df : DataFrame) (price area : list float) : DataFrame :=
  df_select (zip_with andb (inliers price) (inliers area))
    (set_col "living_area" (NumCol (remove_outliers area))
      (set_col "price" (NumCol (remove_outliers price))
        (set_col "price_per_m2" (NumCol (Series.div price area)) df))).

(** The cells of a column with the labels of their rows. *)
Definition labelled (df : DataFrame) (c : column) : list (nat * cell) :=
  zip (index df) (cells c).

(** [shrinks name df df']: [df'] has some of the rows of [df], in the same
    order, and column [name] was not rewritten: its cells, with their row
    labels, are a subsequence of what they were. *)
Definition shrinks (name : string) (df df' : DataFrame) : Prop :=
  index df' `sublist_of` index df ∧
  ∀ c, columns df !! name = Some c →
    ∃ c', columns df' !! name = Some c' ∧
      cells c' `sublist_of` cells c ∧
      labelled df' c' `sublist_of` labelled df c.

(** The pipeline up to step 3, the conversions, and up to step 4, the removal
    of the rows without province. *)
Definition steps_1_to_3 (R : runtime) (df : DataFrame) : result DataFrame :=
  let df := strip_whitespace df in
  df ← drop_duplicates "property_id" df;
  df ← fix_numeric_types R df;
  fix_postal_code R df.

Definition steps_1_to_4 (R : runtime) (df : DataFrame) : result DataFrame :=
  let df := strip_whitespace df in
  df ← drop_duplicates "property_id" df;
  df ← fix_numeric_types R df;
  df ← fix_postal_code R df;
  remove_without_province df.

(** [name] is a float64 column of [df]. *)
Definition numeric (name : string) (df : DataFrame) : Prop :=
  ∃ l, columns df !! name = Some (NumCol l).


(** A float the Int64 conversion accepts: null, or a whole number of the
    int64 range. *)
Definition whole_or_null (x : float) : bool :=
  F64.isnan x ||
  match F64.to_Z_exact x with Some z => F64.in_int64 z | None => false end.

(** The Int64 value of a float the conversion accepts. *)
Definition int64_value (x : float) : option Z :=
  if F64.isnan x then None else F64.to_Z_exact x.

(** The text step 3 makes of a postal code held as a number. *)
Definition postal_text (x : float) : option Py.str :=
  Some (str_of_Int64 (int64_value x)).

Definition index_of (r : result DataFrame) : option (list nat) :=
  match r with Ok df => Some (index df) | Raise _ => None end.

Definition col_of (name : string) (r : result DataFrame) : option column :=
  match r with Ok df => columns df !! name | Raise _ => None end.

(** Every column has one cell per row label. *)
Definition rectangular (df : DataFrame) : Prop :=
  map_Forall (λ _ c, length (cells c) = length (index df)) (columns df).

(** *** Text *)

(** Nothing but whitespace. *)
Definition blank (s : Py.str) : Prop := Forall (λ c, Py.is_space c = true) s.

(** The first, the last character of a string is whitespace. *)
Definition starts_with_space (s : Py.str) : bool :=
  match s with
  | c :: _ => Py.is_space c
  | [] => false
  end.

Fixpoint ends_with_space (s : Py.str) : bool :=
  match s with
  | [] => false
  | [c] => Py.is_space c
  | _ :: s' => ends_with_space s'
  end.

(** A text cell as step 1 leaves it: not empty, no whitespace around. *)
Definition trimmed (s : Py.str) : Prop :=
  s ≠ [] ∧ starts_with_space s = false ∧ ends_with_space s = false.

(** [t] is [s] without the whitespace at its two ends. *)
Definition stripped (s t : Py.str) : Prop :=
  ∃ before after,
    s = before ++ t ++ after ∧ blank before ∧ blank after ∧
    starts_with_space t = false ∧ ends_with_space t = false.

(** *** Numbers *)

(** [x] is a number: neither null nor infinite. *)
Definition finite (x : float) : Prop :=
  F64.isnan x = false ∧ F64.isinf x = false.

(** Two floats that compare equal: the same float, or two zeros. *)
Definition same_number (x y : float) : Prop :=
  x = y ∨ (F64.iszero x = true ∧ F64.iszero y = true).




(** [lower <= v <= upper] *)
Definition within (lower upper v : float) : Prop :=
  (lower <=? v)%float = true ∧ (v <=? upper)%float = true.

#[global] Instance within_dec lower upper v : Decision (within lower upper v).
Proof. unfold within. apply _. Defined.


(** *** Masks *)

(** [(l[m1])[m2] = l[compose_mask m1 m2]]: two selections in a row as one
    mask on the rows of [l]. *)
Fixpoint compose_mask (m1 m2 : list bool) : list bool :=
  match m1 with
  | [] => []
  | true :: m1' =>
      match m2 with
      | [] => []
      | b :: m2' => b :: compose_mask m1' m2'
      end
  | false :: m1' => false :: compose_mask m1' m2
  end.

(** The float64 values of a numeric column. *)
Definition floats (c : column) : list float :=
  match c with NumCol l => l | ObjCol _ => [] end.

(** The rows of the input that are left after step 2, and of those the ones
    left after step 4, as masks. *)
Definition first_ids (property_id : column) : list bool :=
  negb <$> duplicated (normalize_column property_id).

Definition with_province (property_id province : column) : list bool :=
  notna (col_replace_empty
           (col_select (first_ids property_id) (normalize_column province))).

(** The price or living area column after step 4. *)
Definition parsed (R : runtime) (property_id province field : column)
  : list float :=
  floats (col_select (with_province property_id province)
            (to_numeric R (col_select (first_ids property_id)
                             (normalize_column field)))).

(** Of the rows left after step 2, the ones that reach the output: with a
    province (step 4), price and area within the bounds computed on the rows
    left by then (steps 6 and 7). *)
Definition later (R : runtime)
    (property_id province price living_area : column) : list bool :=
  let p := parsed R property_id province price in
  let a := parsed R property_id province living_area in
  compose_mask (with_province property_id province)
    (zip_with andb (inliers p) (inliers a)).

(** The rows of the input that reach the output, as a mask on the input's
    rows. *)
Definition survivors (R : runtime)
    (property_id province price living_area : column) : list bool :=
  compose_mask (first_ids property_id)
    (later R property_id province price living_area).

(** The column with the dtype a replacement leaves it: float64 for a text
    column that holds nulls only, and at least one. *)
Definition downcast (c : column) : column :=
  match c with ObjCol l => convert l | NumCol l => NumCol l end.

(** The columns [clean_immo_data] reads without a guard. *)
Definition required_columns : list string :=
  ["property_id"; "price"; "living_area"; "number_rooms"; "facades";
   "province"].

(** The first column, in the order the function reads them before the postal
    code, that the table lacks. *)
Definition first_missing (df : DataFrame) : option string :=
  find (λ name, bool_decide (columns df !! name = None))
    ("property_id" :: numeric_columns).

(** ** Example tables *)

Definition frame (idx : list nat) (cols : list (string * column)) : DataFrame :=
  {| index := idx; columns := list_to_map cols |}.

Definition text (l : list string) : column := ObjCol ((λ s, Some (utf8 s)) <$> l).

(** [n] listings, labelled 0 to [n - 1], with two rooms and two facades
    each. *)
Definition table (n : nat)
    (property_id price living_area postal_code province : column) : DataFrame :=
  frame (seq 0 n)
    [("property_id", property_id);
     ("price", price);
     ("living_area", living_area);
     ("number_rooms", NumCol (replicate n 2%float));
     ("facades", NumCol (replicate n 2%float));
     ("postal_code", postal_code);
     ("province", province)].

(** Five listings as a CSV reader may deliver them: the third is the first
    again, the last has a price out of range. *)
Definition listings : DataFrame :=
  frame [0; 1; 2; 3; 4]%nat
    [("property_id", text ["A1"; "A2"; " A1 "; "A3"; "A4"]);
     ("price", text ["100000"; "105000"; "100000"; "110000"; "1000000"]);
     ("living_area", NumCol [100; 100; 100; 110; 120]%float);
     ("number_rooms", NumCol [1; 2; 1; 3; 4]%float);
     ("facades", text ["2"; "x"; "2"; "3"; "4"]);
     ("postal_code", NumCol [1000; 1000; 1000; 9000; nan]%float);
     ("province", text ["  Liège  "; "Namur"; "Liège"; "Hainaut"; "Namur"])].

(** Three listings with the given identifiers. *)
Definition three_listings (ids : column) : DataFrame :=
  table 3 ids (NumCol [100000; 105000; 110000]%float)
    (NumCol [100; 110; 120]%float) (NumCol [1000; 4000; 5000]%float)
    (text ["Namur"; "Liège"; "Namur"]).

(** Two listings, the first without province. *)
Definition null_province : DataFrame :=
  table 2 (text ["A1"; "A2"]) (NumCol [100000; 105000]%float)
    (NumCol [100; 110]%float) (NumCol [1000; 4000]%float)
    (ObjCol [None; Some (utf8 "Namur")]).

(** One listing with the given postal code column. *)
Definition one_listing (postal_code : column) : DataFrame :=
  table 1 (text ["A1"]) (NumCol [100000]%float) (NumCol [100]%float)
    postal_code (text ["Namur"]).

(** One listing with the given price and area. *)
Definition priced (price living_area : float) : DataFrame :=
  table 1 (text ["A1"]) (NumCol [price]) (NumCol [living_area])
    (NumCol [1000]%float) (text ["Namur"]).


(** Five listings with the given prices and areas. *)
Definition five_listings (price area : list float) : DataFrame :=
  table 5 (text ["A1"; "A2"; "A3"; "A4"; "A5"]) (NumCol price) (NumCol area)
    (NumCol (replicate 5 1000%float)) (text (replicate 5 "Namur")).

(** A table with two text columns: the second cell of the first is a space
    and a no-break space, the second column is blank. *)
Definition notes : DataFrame :=
  frame [0; 1; 2]%nat
    [("remarks", ObjCol [Some (utf8 " garden "); Some [32; 160]; None]);
     ("agent", text [""; " "; "  "])].

(** A table without rows. *)
Definition no_listings : DataFrame :=
  table 0 (ObjCol []) (ObjCol []) (ObjCol []) (ObjCol []) (ObjCol []).



(** Three listings, the third a second A1 and the only one with a
    province. *)
Definition blank_provinces : DataFrame :=
  table 3 (text ["A1"; "A2"; "A1"]) (NumCol [100000; 105000; 110000]%float)
    (NumCol [100; 110; 120]%float) (NumCol [1000; 4000; 5000]%float)
    (text [""; " "; "Namur"]).
(** * Facts *)

(** ** Binary64 arithmetic *)

Section FloatFacts.

Lemma SFcompare_refl (v : spec_float) :
  v ≠ S754_nan → SFcompare v v = Some Eq.
Proof.
  destruct v as [s|s| |s m e]; intros Hv; try done; simpl.
  - by destruct s.
  - rewrite Z.compare_refl, Pos.compare_cont_refl. by destruct s.
Qed.

Lemma isnan_Prim2SF (x : float) :
  F64.isnan x = true ↔ Prim2SF x = S754_nan.
Proof.
  unfold F64.isnan, is_nan. rewrite FloatAxioms.eqb_spec. unfold SFeqb.
  destruct (Prim2SF x) eqn:E; try done;
    rewrite SFcompare_refl by done; naive_solver.
Qed.

Lemma isnan_false_Prim2SF (x : float) :
  F64.isnan x = false ↔ Prim2SF x ≠ S754_nan.
Proof. rewrite <- isnan_Prim2SF. by destruct (F64.isnan x). Qed.

Lemma isnan_eq_nan (x : float) : F64.isnan x = true → x = nan.
Proof.
  intros H%isnan_Prim2SF. apply Prim2SF_inj. by rewrite H.
Qed.

Lemma leb_nan_l (x : float) : (nan <=? x)%float = false.
Proof. rewrite FloatAxioms.leb_spec. reflexivity. Qed.

Lemma leb_nan_r (x : float) : (x <=? nan)%float = false.
Proof. rewrite FloatAxioms.leb_spec. unfold SFleb. simpl. by destruct (Prim2SF x). Qed.

Lemma between_nan (lower upper : float) : Series.between lower upper nan = false.
Proof. unfold Series.between. by rewrite leb_nan_r. Qed.

Lemma between_isnan (lower upper x : float) :
  Series.between lower upper x = true → F64.isnan x = false.
Proof.
  destruct (F64.isnan x) eqn:E; [|done].
  apply isnan_eq_nan in E as ->. by rewrite between_nan.
Qed.

Lemma iszero_Prim2SF (x : float) :
  F64.iszero x = true ↔ ∃ s, Prim2SF x = S754_zero s.
Proof.
  unfold F64.iszero. rewrite FloatAxioms.eqb_spec.
  change (Prim2SF 0) with (S754_zero false).
  destruct (Prim2SF x) as [s|s| |s m e]; unfold SFeqb; simpl;
    try destruct s;
    (split; [try done; eauto | try done; by intros [? [=]]]).
Qed.

Lemma isinf_Prim2SF (x : float) :
  F64.isinf x = true ↔ ∃ s, Prim2SF x = S754_infinity s.
Proof.
  unfold F64.isinf. rewrite FloatAxioms.eqb_spec, FloatAxioms.abs_spec.
  change (Prim2SF infinity) with (S754_infinity false).
  destruct (Prim2SF x) as [s|s| |s m e]; unfold SFeqb; simpl;
    (split; [try done; eauto | try done; by intros [? [=]]]).
Qed.

Lemma isinf_cases (x : float) :
  F64.isinf x = true → x = infinity ∨ x = neg_infinity.
Proof.
  intros [s Hs]%isinf_Prim2SF.
  destruct s; [right|left]; apply Prim2SF_inj; by rewrite Hs.
Qed.

(** Rounding a non-negative mantissa never gives NaN. *)
Lemma iter_pos_inv {A} (P : A → Prop) (f : A → A) (p : positive) (a : A) :
  (∀ a, P a → P (f a)) → P a → P (SpecFloat.iter_pos f p a).
Proof.
  intros Hf. revert a. induction p as [p IH|p IH|]; simpl; auto.
Qed.

Lemma shr_1_nonneg (mrs : shr_record) : 0 ≤ shr_m mrs → 0 ≤ shr_m (shr_1 mrs).
Proof.
  destruct mrs as [m r s]; simpl. destruct m as [|p|p]; [done| |lia].
  intros _. destruct p; simpl; lia.
Qed.

Lemma shr_m_of_loc (m : Z) (l : location) : shr_m (shr_record_of_loc m l) = m.
Proof. by destruct l as [|[]]. Qed.

Lemma shr_fexp_nonneg (m e : Z) (l : location) :
  0 ≤ m → 0 ≤ shr_m (fst (shr_fexp prec emax m e l)).
Proof.
  intros Hm. unfold shr_fexp, shr.
  destruct (_ - e) as [|p|p]; simpl; rewrite ?shr_m_of_loc; try done.
  apply (iter_pos_inv (λ r, 0 ≤ shr_m r)); [apply shr_1_nonneg|].
  by rewrite shr_m_of_loc.
Qed.

Lemma round_nearest_even_nonneg (m : Z) (l : location) :
  0 ≤ m → 0 ≤ round_nearest_even m l.
Proof. intros. destruct l as [|[]]; simpl; try case_match; lia. Qed.

Lemma binary_round_aux_not_nan (sx : bool) (mx ex : Z) (lx : location) :
  0 ≤ mx → binary_round_aux prec emax sx mx ex lx ≠ S754_nan.
Proof.
  intros Hm. unfold binary_round_aux.
  pose proof (shr_fexp_nonneg mx ex lx Hm) as H1.
  destruct (shr_fexp prec emax mx ex lx) as [mrs' e']. simpl in H1.
  pose proof (shr_fexp_nonneg _ e' loc_Exact
    (round_nearest_even_nonneg _ (loc_of_shr_record mrs') H1)) as H2.
  destruct (shr_fexp prec emax _ e' loc_Exact) as [mrs'' e'']. simpl in H2.
  destruct (shr_m mrs'') as [|p|p]; [done| |lia]. by case_match.
Qed.

Lemma SFdiv_finite_not_nan (sx sy : bool) (mx my : positive) (ex ey : Z) :
  SF64div (S754_finite sx mx ex) (S754_finite sy my ey) ≠ S754_nan.
Proof.
  unfold SF64div, SFdiv.
  destruct (SFdiv_core_binary _ _ _ _ _ _) as [[mz ez] lz] eqn:E.
  apply binary_round_aux_not_nan.
  unfold SFdiv_core_binary in E.
  destruct (Z.div_eucl _ (Z.pos my)) as [q r] eqn:Eq.
  injection E as <- _ _.
  match type of Eq with Z.div_eucl ?a ?b = _ =>
    assert (q = a / b) as -> by (unfold Z.div; by rewrite Eq);
    assert (0 ≤ a) as Ha
  end.
  { case_match; try lia. apply Z.shiftl_nonneg. lia. }
  apply Z.div_pos; lia.
Qed.

(** [x / y] is NaN exactly when an operand is, or both are zero, or both are
    infinite. *)
Lemma div_isnan (x y : float) :
  F64.isnan (x / y) = true ↔
    F64.isnan x = true ∨ F64.isnan y = true ∨
    (F64.iszero x = true ∧ F64.iszero y = true) ∨
    (F64.isinf x = true ∧ F64.isinf y = true).
Proof.
  rewrite !isnan_Prim2SF, !iszero_Prim2SF, !isinf_Prim2SF, FloatAxioms.div_spec.
  pose proof (SFdiv_finite_not_nan) as Hfin.
  destruct (Prim2SF x) as [s|s| |s m e], (Prim2SF y) as [s'|s'| |s' m' e'];
    try specialize (Hfin s s' m m' e e'); unfold SF64div in *; simpl in *;
    (split;
     [intros H; try done; eauto 10
     |intros [H|[H|[[[? H] [? H']]|[[? H] [? H']]]]]; try done]).
Qed.

(** A number other than zero divided by zero is an infinity. *)
Lemma div_by_zero (x y : float) :
  F64.iszero y = true → F64.isnan x = false → F64.iszero x = false →
  F64.isinf (x / y) = true.
Proof.
  rewrite isnan_false_Prim2SF, isinf_Prim2SF, FloatAxioms.div_spec.
  intros [s Hy]%iszero_Prim2SF Hx Hz. rewrite Hy.
  assert (∀ s, Prim2SF x ≠ S754_zero s) as Hz'.
  { intros s' Hs. assert (F64.iszero x = true) by (apply iszero_Prim2SF; eauto).
    congruence. }
  destruct (Prim2SF x) as [t|t| |t m e]; simpl; try done; eauto.
  by destruct (Hz' t).
Qed.

End FloatFacts.

(** ** Boolean indexing *)

Section SelectFacts.
Context {A B C : Type}.
Implicit Types (m : list bool).

Lemma select_fmap (f : A → B) m (l : list A) :
  select m (f <$> l) = f <$> select m l.
Proof.
  revert l. induction m as [|b m IH]; intros [|x l]; simpl; try done.
  destruct b; simpl; by rewrite IH.
Qed.

Lemma select_zip_with (f : A → B → C) m (a : list A) (b : list B) :
  select m (zip_with f a b) = zip_with f (select m a) (select m b).
Proof.
  revert a b. induction m as [|c m IH]; intros [|x a] [|y b]; simpl; try done.
  - by destruct c, (select m a).
  - destruct c; simpl; by rewrite IH.
Qed.

Lemma select_sublist m (l : list A) : select m l `sublist_of` l.
Proof.
  revert l. induction m as [|b m IH]; intros [|x l]; simpl;
    try apply sublist_nil_l.
  destruct b; [by apply sublist_skip | by apply sublist_cons].
Qed.

Lemma select_Forall (P : A → Prop) m (l : list A) :
  (∀ i x, m !! i = Some true → l !! i = Some x → P x) →
  Forall P (select m l).
Proof.
  revert l. induction m as [|b m IH]; intros [|x l] H; simpl; try done.
  destruct b.
  - constructor; [by apply (H 0%nat)|]. apply IH. intros i. apply (H (S i)).
  - apply IH. intros i. apply (H (S i)).
Qed.

Lemma select_length_eq m (a : list A) (b : list B) :
  (length m ≤ length a)%nat → (length m ≤ length b)%nat →
  length (select m a) = length (select m b).
Proof.
  revert a b. induction m as [|c m IH]; intros [|x a] [|y b]; simpl;
    try done; try lia.
  intros. destruct c; simpl; rewrite (IH a b); auto with lia.
Qed.

(** Two lists that agree wherever the mask is true have the same selection. *)
Lemma select_ext m (a b : list A) :
  length a = length b →
  (∀ i, m !! i = Some true → a !! i = b !! i) →
  select m a = select m b.
Proof.
  revert a b. induction m as [|c m IH]; intros [|x a] [|y b]; simpl;
    try done.
  intros Hl H. injection Hl as Hl.
  rewrite (IH a b Hl) by (intros i; apply (H (S i))).
  destruct c; [|done]. specialize (H 0%nat eq_refl). simpl in H. congruence.
Qed.

End SelectFacts.

(** ** Keys and duplicates *)

(** *** Equality of keys *)




Lemma cell_eqb_isna (a b : cell) :
  cell_isna a = true → cell_isna b = true → cell_eqb a b = true.
Proof.
  destruct a as [s|x], b as [t|y]; try done.
  unfold cell_isna, cell_eqb, F64.key_eqb. intros -> ->.
  apply orb_true_r.
Qed.

(** *** [duplicated] *)

Lemma duplicated_from_length (seen l : list cell) :
  length (duplicated_from seen l) = length l.
Proof. revert seen. induction l; intros; simpl; auto. Qed.

Lemma duplicated_from_lookup (seen l : list cell) (i : nat) (x : cell) :
  l !! i = Some x →
  duplicated_from seen l !! i =
    Some (existsb (cell_eqb x) (reverse (take i l) ++ seen)).
Proof.
  revert seen i. induction l as [|a l IH]; intros seen [|i]; simpl; try done.
  - by intros [= ->].
  - intros H. rewrite (IH _ _ H), reverse_cons, <- app_assoc. done.
Qed.


(** *** Pairwise distinct cells *)




(** ** Frames and steps *)

(** *** The error monad *)

Lemma bind_Ok_inv {A B} (f : A → result B) (r : result A) (b : B) :
  r ≫= f = Ok b → ∃ a, r = Ok a ∧ f a = Ok b.
Proof. destruct r as [a|e]; [by exists a|done]. Qed.

Ltac inv_bind H :=
  let a := fresh "df" in
  let E := fresh "E" in
  apply bind_Ok_inv in H as (a & E & H).

(** *** Frames *)

Lemma cells_col_select (m : list bool) (c : column) :
  cells (col_select m c) = select m (cells c).
Proof. destruct c; simpl; by rewrite select_fmap. Qed.

Lemma lookup_df_select (m : list bool) (df : DataFrame) (name : string) :
  columns (df_select m df) !! name = col_select m <$> columns df !! name.
Proof. apply lookup_fmap. Qed.

Lemma get_col_Ok (name : string) (df : DataFrame) (c : column) :
  get_col name df = Ok c ↔ columns df !! name = Some c.
Proof. unfold get_col. destruct (columns df !! name); naive_solver. Qed.

Lemma get_num_Ok (name : string) (df : DataFrame) (l : list float) :
  get_num name df = Ok l ↔ columns df !! name = Some (NumCol l).
Proof.
  unfold get_num, get_col.
  destruct (columns df !! name) as [[?|?]|]; simpl; naive_solver.
Qed.

Lemma shrinks_refl (name : string) (df : DataFrame) : shrinks name df df.
Proof. split; [done|]. intros c Hc. by exists c. Qed.

Lemma shrinks_trans (name : string) (df1 df2 df3 : DataFrame) :
  shrinks name df1 df2 → shrinks name df2 df3 → shrinks name df1 df3.
Proof.
  intros [Hi1 Hc1] [Hi2 Hc2]. split; [by etrans|].
  intros c Hc. destruct (Hc1 c Hc) as (c' & Hc' & Hs & Hl).
  destruct (Hc2 c' Hc') as (c'' & Hc'' & Hs' & Hl'). exists c''.
  split_and!; [done|by etrans|by etrans].
Qed.

Lemma shrinks_select (name : string) (m : list bool) (df : DataFrame) :
  shrinks name df (df_select m df).
Proof.
  split; [apply select_sublist|]. intros c Hc. exists (col_select m c).
  rewrite lookup_df_select, Hc. unfold labelled.
  rewrite cells_col_select. split_and!; [done|apply select_sublist|].
  simpl. rewrite <- select_zip_with. apply select_sublist.
Qed.

Lemma shrinks_set_col (name other : string) (c : column) (df : DataFrame) :
  other ≠ name → shrinks name df (set_col other c df).
Proof.
  intros Hne. split; [done|]. intros c' Hc'. exists c'. simpl.
  by rewrite lookup_insert_ne.
Qed.

Section StageFacts.
Variable R : runtime.
Variable name : string.

Lemma coerce_numeric_shrinks (df df' : DataFrame) (col : string) :
  col ≠ name →
  coerce_numeric R df col = Ok df' → shrinks name df df'.
Proof.
  intros Hcol H. unfold coerce_numeric in H. inv_bind H. injection H as <-.
  by apply shrinks_set_col.
Qed.

Lemma fix_numeric_types_unfold (df : DataFrame) :
  fix_numeric_types R df =
    df1 ← coerce_numeric R df "price";
    df2 ← coerce_numeric R df1 "living_area";
    df3 ← coerce_numeric R df2 "number_rooms";
    coerce_numeric R df3 "facades".
Proof.
  unfold fix_numeric_types. simpl.
  destruct (coerce_numeric _ df _) as [df1|]; simpl; [|done].
  destruct (coerce_numeric _ df1 _) as [df2|]; simpl; [|done].
  by destruct (coerce_numeric _ df2 _) as [df3|].
Qed.

Lemma fix_numeric_types_shrinks (df df' : DataFrame) :
  name ∉ numeric_columns →
  fix_numeric_types R df = Ok df' → shrinks name df df'.
Proof.
  rewrite fix_numeric_types_unfold. intros Hn H.
  inv_bind H. inv_bind H. inv_bind H.
  repeat (eapply shrinks_trans;
    [eapply coerce_numeric_shrinks; [|eassumption];
     intros <-; apply Hn; compute_done|]).
  apply shrinks_refl.
Qed.

Lemma fix_postal_code_shrinks (df df' : DataFrame) :
  name ≠ "postal_code" →
  fix_postal_code R df = Ok df' → shrinks name df df'.
Proof.
  intros Hn. unfold fix_postal_code.
  destruct (columns df !! "postal_code") as [c|].
  - intros H. inv_bind H. injection H as <-. by apply shrinks_set_col.
  - intros [= <-]. apply shrinks_refl.
Qed.

Lemma remove_without_province_shrinks (df df' : DataFrame) :
  name ≠ "province" →
  remove_without_province df = Ok df' → shrinks name df df'.
Proof.
  intros Hn. unfold remove_without_province. intros H.
  inv_bind H. inv_bind H. injection H as <-.
  eapply shrinks_trans; [|apply shrinks_select]. by apply shrinks_set_col.
Qed.

Lemma compute_price_per_m2_shrinks (df df' : DataFrame) :
  name ≠ "price_per_m2" →
  compute_price_per_m2 df = Ok df' → shrinks name df df'.
Proof.
  intros Hn. unfold compute_price_per_m2. intros H. inv_bind H. inv_bind H.
  injection H as <-. by apply shrinks_set_col.
Qed.

Lemma null_outliers_shrinks (col : string) (df df' : DataFrame) :
  col ≠ name →
  null_outliers col df = Ok df' → shrinks name df df'.
Proof.
  unfold null_outliers. intros Hcol H. inv_bind H.
  injection H as <-. by apply shrinks_set_col.
Qed.

Lemma dropna2_shrinks (a b : string) (df df' : DataFrame) :
  dropna2 a b df = Ok df' → shrinks name df df'.
Proof.
  unfold dropna2. intros H. inv_bind H. inv_bind H.
  injection H as <-. apply shrinks_select.
Qed.

(** Steps 5 to 7 assign [price_per_m2], [price] and [living_area]. *)
Lemma metric_and_outliers_shrinks (df out : DataFrame) :
  name ∉ ["price"; "living_area"; "price_per_m2"] →
  (d ← compute_price_per_m2 df;
   d ← null_outliers "price" d;
   d ← null_outliers "living_area" d;
   dropna2 "price" "living_area" d) = Ok out →
  shrinks name df out.
Proof.
  intros Hn H. do 3 inv_bind H.
  eapply shrinks_trans;
    [eapply compute_price_per_m2_shrinks; [|eassumption];
     intros ->; apply Hn; compute_done|].
  eapply shrinks_trans;
    [eapply null_outliers_shrinks; [|exact E0];
     intros <-; apply Hn; compute_done|].
  eapply shrinks_trans;
    [eapply null_outliers_shrinks; [|exact E1];
     intros <-; apply Hn; compute_done|].
  by eapply dropna2_shrinks.
Qed.

(** Steps 4 to 7 assign [province] as well. *)
Lemma after_types_shrinks (d4 out : DataFrame) :
  name ∉ ["province"; "price"; "living_area"; "price_per_m2"] →
  (d5 ← remove_without_province d4;
   d ← compute_price_per_m2 d5;
   d ← null_outliers "price" d;
   d ← null_outliers "living_area" d;
   dropna2 "price" "living_area" d) = Ok out →
  shrinks name d4 out.
Proof.
  intros Hn H. inv_bind H.
  eapply shrinks_trans;
    [eapply remove_without_province_shrinks; [|eassumption];
     intros ->; apply Hn; compute_done|].
  eapply metric_and_outliers_shrinks; [|done].
  intros Hin. apply Hn. by apply list_elem_of_further.
Qed.

(** After the deduplication rows are only removed, and the columns the
    pipeline does not assign are only filtered. *)
Lemma after_dedup_shrinks (d2 out : DataFrame) :
  name ∉ ["price"; "living_area"; "number_rooms"; "facades"; "postal_code";
          "province"; "price_per_m2"] →
  (d3 ← fix_numeric_types R d2;
   d4 ← fix_postal_code R d3;
   d5 ← remove_without_province d4;
   d ← compute_price_per_m2 d5;
   d ← null_outliers "price" d;
   d ← null_outliers "living_area" d;
   dropna2 "price" "living_area" d) = Ok out →
  shrinks name d2 out.
Proof.
  intros Hn H. do 2 inv_bind H.
  rewrite !not_elem_of_cons in Hn.
  destruct Hn as (? & ? & ? & ? & ? & ? & ? & ?).
  eapply shrinks_trans;
    [eapply fix_numeric_types_shrinks; [|eassumption];
     unfold numeric_columns; by rewrite !not_elem_of_cons|].
  eapply shrinks_trans;
    [by eapply fix_postal_code_shrinks; [|eassumption]|].
  eapply after_types_shrinks; [|done].
  by rewrite !not_elem_of_cons.
Qed.

End StageFacts.

(** *** [remove_outliers] *)

#[local] Arguments iqr_bounds : simpl never.


Lemma valid_idemp (s : list float) : Series.valid (Series.valid s) = Series.valid s.
Proof.
  unfold Series.valid. induction s as [|x s IH]; simpl; [done|].
  destruct (F64.isnan x) eqn:E; simpl; [done|]. by rewrite E, IH.
Qed.

Lemma quantile_valid (s : list float) (q : float) :
  Series.quantile s q = Series.quantile (Series.valid s) q.
Proof. unfold Series.quantile. by rewrite valid_idemp. Qed.

Lemma iqr_bounds_valid (s : list float) :
  iqr_bounds s = iqr_bounds (Series.valid s).
Proof. unfold iqr_bounds. by rewrite <- !quantile_valid. Qed.

Lemma remove_outliers_eq (s : list float) :
  remove_outliers s =
    (λ v, if Series.between (iqr_bounds s).1 (iqr_bounds s).2 v then v else nan)
      <$> s.
Proof.
  unfold remove_outliers. destruct (iqr_bounds s) as [lower upper]. simpl.
  unfold Series.where_. generalize (Series.between lower upper).
  intros f. induction s as [|x s IH]; [done|].
  rewrite !fmap_cons. simpl. by f_equal.
Qed.

Lemma remove_outliers_length (s : list float) :
  length (remove_outliers s) = length s.
Proof. by rewrite remove_outliers_eq, length_fmap. Qed.

Lemma remove_outliers_lookup (s : list float) (i : nat) (v : float) :
  s !! i = Some v →
  remove_outliers s !! i =
    Some (if Series.between (iqr_bounds s).1 (iqr_bounds s).2 v then v else nan).
Proof. intros H. by rewrite remove_outliers_eq, list_lookup_fmap, H. Qed.

Lemma notna_remove_outliers (s : list float) :
  notna (NumCol (remove_outliers s)) = inliers s.
Proof.
  unfold notna, isna, inliers. simpl. rewrite remove_outliers_eq.
  rewrite <- !list_fmap_compose. apply list_fmap_ext. intros _ v _. simpl.
  destruct (Series.between _ _ v) eqn:E; [|done].
  by rewrite (between_isnan _ _ _ E).
Qed.

Lemma inliers_lookup (s : list float) (i : nat) :
  inliers s !! i = Some true →
  ∃ v, s !! i = Some v ∧ remove_outliers s !! i = Some v ∧ F64.isnan v = false.
Proof.
  unfold inliers. rewrite list_lookup_fmap, fmap_Some.
  intros (v & E & Hb). symmetry in Hb.
  exists v. rewrite (remove_outliers_lookup _ _ _ E), Hb.
  eauto using between_isnan.
Qed.

(** *** Steps 5 to 7 *)

Lemma metric_and_outliers_inv (df out : DataFrame) :
  (df ← compute_price_per_m2 df;
   df ← null_outliers "price" df;
   df ← null_outliers "living_area" df;
   dropna2 "price" "living_area" df) = Ok out →
  ∃ price area,
    columns df !! "price" = Some (NumCol price) ∧
    columns df !! "living_area" = Some (NumCol area) ∧
    out = after_outliers df price area.
Proof.
  intros H. inv_bind H. inv_bind H. inv_bind H.
  unfold compute_price_per_m2 in E.
  apply bind_Ok_inv in E as (price & Hp & E).
  apply bind_Ok_inv in E as (area & Ha & E).
  injection E as <-.
  unfold null_outliers in E0. apply bind_Ok_inv in E0 as (p & Hp' & E0).
  injection E0 as <-.
  unfold null_outliers in E1. apply bind_Ok_inv in E1 as (a & Ha' & E1).
  injection E1 as <-.
  apply get_num_Ok in Hp, Ha, Hp', Ha'. simpl in Hp', Ha'.
  rewrite lookup_insert_ne in Hp' by done.
  rewrite Hp in Hp'. injection Hp' as <-.
  do 2 (rewrite lookup_insert_ne in Ha' by done).
  rewrite Ha in Ha'. injection Ha' as <-.
  exists price, area. split_and!; [done..|].
  unfold dropna2 in H.
  apply bind_Ok_inv in H as (ca & Hca%get_col_Ok & H).
  apply bind_Ok_inv in H as (cb & Hcb%get_col_Ok & H).
  simpl in Hca, Hcb.
  rewrite lookup_insert_ne in Hca by done.
  rewrite lookup_insert_eq in Hca. rewrite lookup_insert_eq in Hcb.
  injection Hca as <-. injection Hcb as <-.
  injection H as <-. unfold after_outliers.
  by rewrite !notna_remove_outliers.
Qed.

Lemma bind_Ok {A B} (f : A → result B) (a : A) : Ok a ≫= f = f a.
Proof. done. Qed.

Lemma compute_price_per_m2_Ok (df : DataFrame) (price area : list float) :
  columns df !! "price" = Some (NumCol price) →
  columns df !! "living_area" = Some (NumCol area) →
  compute_price_per_m2 df =
    Ok (set_col "price_per_m2" (NumCol (Series.div price area)) df).
Proof.
  intros Hp%get_num_Ok Ha%get_num_Ok. unfold compute_price_per_m2.
  by rewrite Hp, bind_Ok, Ha, bind_Ok.
Qed.

Lemma null_outliers_Ok (name : string) (df : DataFrame) (s : list float) :
  columns df !! name = Some (NumCol s) →
  null_outliers name df = Ok (set_col name (NumCol (remove_outliers s)) df).
Proof. intros H%get_num_Ok. unfold null_outliers. by rewrite H, bind_Ok. Qed.

Lemma dropna2_Ok (a b : string) (df : DataFrame) (ca cb : column) :
  columns df !! a = Some ca → columns df !! b = Some cb →
  dropna2 a b df = Ok (df_select (zip_with andb (notna ca) (notna cb)) df).
Proof.
  intros Ha%get_col_Ok Hb%get_col_Ok. unfold dropna2.
  by rewrite Ha, bind_Ok, Hb, bind_Ok.
Qed.

Lemma metric_and_outliers_Ok (df : DataFrame) (price area : list float) :
  columns df !! "price" = Some (NumCol price) →
  columns df !! "living_area" = Some (NumCol area) →
  (df ← compute_price_per_m2 df;
   df ← null_outliers "price" df;
   df ← null_outliers "living_area" df;
   dropna2 "price" "living_area" df) = Ok (after_outliers df price area).
Proof.
  intros Hp Ha.
  rewrite (compute_price_per_m2_Ok _ _ _ Hp Ha), bind_Ok.
  rewrite (null_outliers_Ok "price" _ price), bind_Ok
    by (simpl; by rewrite lookup_insert_ne).
  rewrite (null_outliers_Ok "living_area" _ area), bind_Ok
    by (simpl; by do 2 (rewrite lookup_insert_ne by done)).
  rewrite (dropna2_Ok _ _ _ (NumCol (remove_outliers price))
             (NumCol (remove_outliers area)))
    by (simpl; first [apply lookup_insert_eq
                     | rewrite lookup_insert_ne by done; apply lookup_insert_eq]).
  unfold after_outliers. by rewrite !notna_remove_outliers.
Qed.

(** *** The numeric columns after step 3 *)

Section NumericColumns.
Variable R : runtime.

Lemma numeric_set_col (name other : string) (c : column) (df : DataFrame) :
  numeric name df → other ≠ name → numeric name (set_col other c df).
Proof. intros [l Hl] Hne. exists l. simpl. by rewrite lookup_insert_ne. Qed.

Lemma numeric_select (name : string) (m : list bool) (df : DataFrame) :
  numeric name df → numeric name (df_select m df).
Proof.
  intros [l Hl]. exists (select m l). by rewrite lookup_df_select, Hl.
Qed.

Lemma coerce_numeric_numeric (df df' : DataFrame) (col name : string) :
  coerce_numeric R df col = Ok df' →
  name = col ∨ numeric name df → numeric name df'.
Proof.
  unfold coerce_numeric. intros H. apply bind_Ok_inv in H as (c & Hc & H).
  injection H as <-. destruct (decide (col = name)) as [->|Hne].
  - intros _. unfold numeric. simpl. rewrite lookup_insert_eq.
    destruct c; simpl; eauto.
  - intros [->|Hn]; [done|]. by apply numeric_set_col.
Qed.

Lemma fix_numeric_types_numeric (df df' : DataFrame) :
  fix_numeric_types R df = Ok df' →
  numeric "price" df' ∧ numeric "living_area" df'.
Proof.
  rewrite fix_numeric_types_unfold. intros H.
  inv_bind H. inv_bind H. inv_bind H.
  split.
  - apply (coerce_numeric_numeric _ _ _ _ H). right.
    apply (coerce_numeric_numeric _ _ _ _ E1). right.
    apply (coerce_numeric_numeric _ _ _ _ E0). right.
    apply (coerce_numeric_numeric _ _ _ _ E). by left.
  - apply (coerce_numeric_numeric _ _ _ _ H). right.
    apply (coerce_numeric_numeric _ _ _ _ E1). right.
    apply (coerce_numeric_numeric _ _ _ _ E0). by left.
Qed.

(** Whenever the pipeline reaches step 5, [price] and [living_area] are
    float64 columns. *)
Lemma numeric_before_metric (d2 d3 d4 d5 : DataFrame) :
  fix_numeric_types R d2 = Ok d3 →
  fix_postal_code R d3 = Ok d4 →
  remove_without_province d4 = Ok d5 →
  ∃ price area,
    columns d5 !! "price" = Some (NumCol price) ∧
    columns d5 !! "living_area" = Some (NumCol area).
Proof.
  intros H3 H4 H5.
  assert (∀ name, name = "price" ∨ name = "living_area" → numeric name d5)
    as Hnum.
  { intros name Hname.
    assert (numeric name d3) as Hn3.
    { destruct (fix_numeric_types_numeric _ _ H3).
      by destruct Hname as [->| ->]. }
    assert (numeric name d4) as Hn4.
    { unfold fix_postal_code in H4.
      destruct (columns d3 !! "postal_code"); [|by injection H4 as <-].
      inv_bind H4. injection H4 as <-. apply numeric_set_col; [done|].
      by destruct Hname as [->| ->]. }
    unfold remove_without_province in H5. inv_bind H5. inv_bind H5.
    injection H5 as <-. apply numeric_select, numeric_set_col; [done|].
    by destruct Hname as [->| ->]. }
  destruct (Hnum "price") as [price Hp]; [by left|].
  destruct (Hnum "living_area") as [area Ha]; [by right|].
  by exists price, area.
Qed.

End NumericColumns.

(** *** The whole pipeline *)

Lemma clean_immo_data_inv (R : runtime) (df out : DataFrame) :
  clean_immo_data R df = Ok out →
  ∃ d2 d3 d4 d5,
    drop_duplicates "property_id" (strip_whitespace df) = Ok d2 ∧
    fix_numeric_types R d2 = Ok d3 ∧
    fix_postal_code R d3 = Ok d4 ∧
    remove_without_province d4 = Ok d5 ∧
    (d ← compute_price_per_m2 d5;
     d ← null_outliers "price" d;
     d ← null_outliers "living_area" d;
     dropna2 "price" "living_area" d) = Ok out.
Proof.
  unfold clean_immo_data. intros H.
  apply bind_Ok_inv in H as (d2 & E2 & H).
  apply bind_Ok_inv in H as (d3 & E3 & H).
  apply bind_Ok_inv in H as (d4 & E4 & H).
  apply bind_Ok_inv in H as (d5 & E5 & H).
  by exists d2, d3, d4, d5.
Qed.

Lemma clean_immo_data_split (R : runtime) (df : DataFrame) :
  clean_immo_data R df =
    d ← steps_1_to_4 R df;
    d ← compute_price_per_m2 d;
    d ← null_outliers "price" d;
    d ← null_outliers "living_area" d;
    dropna2 "price" "living_area" d.
Proof.
  unfold clean_immo_data, steps_1_to_4.
  destruct (drop_duplicates _ _) as [d2|]; [|done]. simpl.
  destruct (fix_numeric_types _ _) as [d3|]; [|done]. simpl.
  by destruct (fix_postal_code R _) as [d4|].
Qed.

(** Once step 4 has passed the pipeline returns: steps 5 to 7 raise
    nothing. *)
Lemma clean_immo_data_returns (R : runtime)
    (df d : DataFrame) :
  steps_1_to_4 R df = Ok d →
  ∃ price area,
    columns d !! "price" = Some (NumCol price) ∧
    columns d !! "living_area" = Some (NumCol area) ∧
    clean_immo_data R df = Ok (after_outliers d price area).
Proof.
  intros H. rewrite clean_immo_data_split, H, bind_Ok.
  unfold steps_1_to_4 in H.
  apply bind_Ok_inv in H as (d2 & _ & H).
  apply bind_Ok_inv in H as (d3 & H3 & H).
  apply bind_Ok_inv in H as (d4 & H4 & H5).
  destruct (numeric_before_metric _ _ _ _ _ H3 H4 H5)
    as (price & area & Hp & Ha).
  exists price, area. split_and!; [done..|].
  by apply metric_and_outliers_Ok.
Qed.

Lemma zip_with_andb_true (a b : list bool) (i : nat) :
  zip_with andb a b !! i = Some true → a !! i = Some true ∧ b !! i = Some true.
Proof.
  rewrite lookup_zip_with.
  by destruct (a !! i) as [[]|], (b !! i) as [[]|].
Qed.

(** Where a row survives step 7, step 6 left its two fields as they were. *)
Lemma select_inliers_l (p a : list float) :
  select (zip_with andb (inliers p) (inliers a)) (remove_outliers p)
    = select (zip_with andb (inliers p) (inliers a)) p.
Proof.
  apply select_ext; [apply remove_outliers_length|].
  intros i [Hi _]%zip_with_andb_true.
  destruct (inliers_lookup _ _ Hi) as (v & -> & -> & _). done.
Qed.

Lemma select_inliers_r (p a : list float) :
  select (zip_with andb (inliers p) (inliers a)) (remove_outliers a)
    = select (zip_with andb (inliers p) (inliers a)) a.
Proof.
  apply select_ext; [apply remove_outliers_length|].
  intros i [_ Hi]%zip_with_andb_true.
  destruct (inliers_lookup _ _ Hi) as (v & -> & -> & _). done.
Qed.

Lemma isinf_not_nan (x : float) : F64.isinf x = true → F64.isnan x = false.
Proof.
  intros [s Hs]%isinf_Prim2SF. apply isnan_false_Prim2SF. by rewrite Hs.
Qed.

(** *** Steps 1 and 3 on cells *)

Lemma normalize_cell_None (c : option Py.str) :
  normalize_cell c = None ↔ ∃ s, c = Some s ∧ Py.strip s = [].
Proof.
  unfold normalize_cell, replace_empty, strip_cell. destruct c as [s|]; simpl.
  - case_bool_decide as E; split; try done.
    + intros _. by exists s.
    + intros (s' & [= <-] & Hs). by rewrite Hs in E.
  - split; [done|]. by intros (s & ? & _).
Qed.

Lemma all_null_spec (l : list (option Py.str)) :
  all_null l = true → l = (λ _, None) <$> l.
Proof.
  induction l as [|[s|] l IH]; simpl; [done..|].
  intros H. f_equal. by apply IH.
Qed.

(** The downcast of an all-null column changes its dtype, not its cells. *)
Lemma cells_convert (l : list (option Py.str)) :
  cells (convert l) = obj_cell <$> l.
Proof.
  unfold convert. destruct l as [|c l]; [done|].
  destruct (all_null (c :: l)) eqn:E; [|done].
  apply all_null_spec in E. rewrite E at 2. simpl.
  rewrite <- !list_fmap_compose. done.
Qed.

Lemma cells_normalize_column (l : list (option Py.str)) :
  cells (normalize_column (ObjCol l)) = (obj_cell ∘ normalize_cell) <$> l.
Proof. simpl. by rewrite cells_convert, <- list_fmap_compose. Qed.

Lemma cells_col_replace_empty (l : list (option Py.str)) :
  cells (col_replace_empty (ObjCol l)) = (obj_cell ∘ replace_empty) <$> l.
Proof. simpl. by rewrite cells_convert, <- list_fmap_compose. Qed.

Lemma length_cells_convert (l : list (option Py.str)) :
  length (cells (convert l)) = length l.
Proof. by rewrite cells_convert, length_fmap. Qed.

Lemma cells_normalize_isna (c : column) (i : nat) (x : cell) :
  cells c !! i = Some x → cell_isna x = true →
  cells (normalize_column c) !! i =
    Some (match c with ObjCol _ => Text (utf8 "nan") | NumCol _ => x end).
Proof.
  destruct c as [l|l]; [|done]. rewrite cells_normalize_column.
  simpl. rewrite !list_lookup_fmap.
  destruct (l !! i) as [[s|]|]; simpl; try done. by intros [= <-].
Qed.

Lemma traverse_Ok {A B} (f : A → result B) (l : list A) :
  Forall (λ x, is_ok (f x) = true) l →
  ∃ l', traverse f l = Ok l' ∧ length l' = length l ∧
    ∀ i x, l !! i = Some x → ∃ y, l' !! i = Some y ∧ f x = Ok y.
Proof.
  induction 1 as [|x l Hx Hl (l' & Hl' & Hlen & IH)]; simpl.
  - exists []. by split_and!.
  - destruct (f x) as [y|] eqn:E; [|done]. rewrite Hl'. simpl.
    exists (y :: l'). split_and!; [done|simpl; by f_equal|].
    intros [|i] z; simpl; [|apply IH]. intros [= <-]. eauto.
Qed.

Lemma traverse_Raise {A B} (f : A → result B) (l : list A) (i : nat) (x : A) :
  l !! i = Some x → is_ok (f x) = false → is_ok (traverse f l) = false.
Proof.
  revert i. induction l as [|y l IH]; intros [|i]; simpl; try done.
  - intros [= ->] Hx. by destruct (f x).
  - intros Hi Hx. destruct (f y); [|done]. simpl.
    specialize (IH i Hi Hx). by destruct (traverse f l).
Qed.

Lemma int64_of_float_ok (name : string) (x : float) :
  whole_or_null x = true → is_ok (int64_of_float name x) = true.
Proof.
  unfold whole_or_null, int64_of_float.
  destruct (F64.isnan x); [done|]. simpl.
  destruct (F64.to_Z_exact x) as [z|]; [|done]. by intros ->.
Qed.

(** *** Step 3 on the postal code *)

Lemma select_forallb {A} (f : A → bool) (m : list bool) (l : list A) :
  forallb f l = true → forallb f (select m l) = true.
Proof.
  revert l. induction m as [|b m IH]; intros [|x l]; simpl; try done.
  intros [Hx Hl]%andb_true_iff. destruct b; simpl; [rewrite Hx; simpl|]; auto.
Qed.

Lemma traverse_fmap {A B} (f : A → result B) (g : A → B) (l : list A)
    (l' : list B) :
  (∀ x y, f x = Ok y → y = g x) →
  traverse f l = Ok l' → l' = g <$> l.
Proof.
  intros Hfg. revert l'. induction l as [|x l IH]; simpl; intros l'.
  - by intros [= <-].
  - intros H. apply bind_Ok_inv in H as (y & Hy & H).
    apply bind_Ok_inv in H as (ys & Hys & H). injection H as <-.
    by rewrite (Hfg _ _ Hy), (IH _ Hys).
Qed.

Lemma int64_of_float_value (name : string) (x : float) (z : option Z) :
  int64_of_float name x = Ok z → z = int64_value x.
Proof.
  unfold int64_of_float, int64_value. destruct (F64.isnan x).
  - by intros [= <-].
  - destruct (F64.to_Z_exact x) as [z'|]; [|done].
    destruct (F64.in_int64 z'); [|done]. by intros [= <-].
Qed.

Lemma fix_postal_code_number (R : runtime) (df df' : DataFrame)
    (l : list float) :
  columns df !! "postal_code" = Some (NumCol l) →
  fix_postal_code R df = Ok df' →
  df' = set_col "postal_code" (ObjCol (postal_text <$> l)) df.
Proof.
  intros Hc. unfold fix_postal_code. rewrite Hc.
  unfold astype_Int64_str, astype_Int64. intros H.
  apply bind_Ok_inv in H as (c & Hc' & H). injection H as <-.
  apply bind_Ok_inv in Hc' as (zs & Hzs & Hc'). injection Hc' as <-.
  apply (traverse_fmap _ int64_value) in Hzs as ->;
    [|apply int64_of_float_value].
  by rewrite <- list_fmap_compose.
Qed.

Lemma fix_postal_code_number_ok (R : runtime) (df : DataFrame)
    (l : list float) :
  columns df !! "postal_code" = Some (NumCol l) →
  forallb whole_or_null l = true →
  is_ok (fix_postal_code R df) = true.
Proof.
  intros Hc Hl. unfold fix_postal_code. rewrite Hc.
  unfold astype_Int64_str, astype_Int64.
  destruct (traverse_Ok (int64_of_float "postal_code") l) as (zs & -> & _).
  { apply Forall_forall. intros x Hx%list_elem_of_In.
    apply int64_of_float_ok. rewrite forallb_forall in Hl. auto. }
  done.
Qed.

Section Untouched.
Variable R : runtime.

Lemma coerce_numeric_other (df df' : DataFrame) (col name : string) :
  col ≠ name →
  coerce_numeric R df col = Ok df' →
  columns df' !! name = columns df !! name ∧ index df' = index df.
Proof.
  intros Hne H. unfold coerce_numeric in H. inv_bind H. injection H as <-.
  simpl. by rewrite lookup_insert_ne.
Qed.

Lemma fix_numeric_types_other (df df' : DataFrame) (name : string) :
  name ∉ numeric_columns →
  fix_numeric_types R df = Ok df' →
  columns df' !! name = columns df !! name ∧ index df' = index df.
Proof.
  rewrite fix_numeric_types_unfold. intros Hn H.
  unfold numeric_columns in Hn. rewrite !not_elem_of_cons in Hn.
  destruct Hn as (? & ? & ? & ? & _).
  inv_bind H. inv_bind H. inv_bind H.
  apply (coerce_numeric_other _ _ _ name) in H as [-> ->]; [|done].
  apply (coerce_numeric_other _ _ _ name) in E1 as [-> ->]; [|done].
  apply (coerce_numeric_other _ _ _ name) in E0 as [-> ->]; [|done].
  apply (coerce_numeric_other _ _ _ name) in E as [-> ->]; done.
Qed.

End Untouched.

(** *** Step 4 on the output *)

Lemma replace_empty_not_empty (c : column) (x : cell) :
  x ∈ cells (col_replace_empty c) → x ≠ Text [].
Proof.
  destruct c as [l|l].
  - rewrite cells_col_replace_empty. intros (c & -> & _)%list_elem_of_fmap.
    destruct c as [s|]; simpl; [|done]. case_bool_decide; simpl; congruence.
  - simpl. by intros (y & -> & _)%list_elem_of_fmap.
Qed.

(** Every row of the output has a province, and it is not the empty text. *)
Lemma output_province_notna (R : runtime)
    (df out : DataFrame) :
  clean_immo_data R df = Ok out →
  ∃ c, columns out !! "province" = Some c ∧
    Forall (λ x, cell_isna x = false ∧ x ≠ Text []) (cells c).
Proof.
  intros (d2 & d3 & d4 & d5 & _ & _ & _ & H5 & H)%clean_immo_data_inv.
  apply metric_and_outliers_inv in H as (p & a & _ & _ & ->).
  unfold remove_without_province in H5.
  apply bind_Ok_inv in H5 as (c & _ & H5).
  apply bind_Ok_inv in H5 as (c' & Hc'%get_col_Ok & H5).
  simpl in Hc'. rewrite lookup_insert_eq in Hc'. injection Hc' as <-.
  injection H5 as <-.
  eexists. split.
  - unfold after_outliers. rewrite lookup_df_select. simpl.
    do 3 (rewrite lookup_insert_ne by done).
    rewrite lookup_fmap, lookup_insert_eq. done.
  - rewrite !cells_col_select. apply select_Forall. intros i x _ Hx.
    revert i x Hx. apply Forall_lookup, select_Forall. intros i x Hm Hx.
    split; [|eapply replace_empty_not_empty, list_elem_of_lookup_2, Hx].
    unfold notna, isna in Hm. rewrite !list_lookup_fmap, Hx in Hm.
    simpl in Hm. destruct (cell_isna x); [done|done].
Qed.

(** * Further facts *)

(** ** Masks *)

Lemma select_compose {A} (m1 m2 : list bool) (l : list A) :
  select (compose_mask m1 m2) l = select m2 (select m1 l).
Proof.
  revert m2 l. induction m1 as [|b m1 IH]; intros m2 l; simpl.
  - by destruct m2.
  - destruct b.
    + destruct m2 as [|b2 m2], l as [|x l]; simpl; try done.
      by rewrite IH.
    + destruct l as [|x l]; simpl; [by destruct m2|]. apply IH.
Qed.

Lemma col_select_compose (m1 m2 : list bool) (c : column) :
  col_select (compose_mask m1 m2) c = col_select m2 (col_select m1 c).
Proof. destruct c; simpl; by rewrite select_compose. Qed.

Lemma elem_of_select {A} (m : list bool) (l : list A) (x : A) :
  x ∈ select m l → x ∈ l.
Proof. intros H. eapply elem_of_sublist; [exact H|apply select_sublist]. Qed.

Lemma select_length_same {A B} (m : list bool) (a : list A) (b : list B) :
  length a = length b → length (select m a) = length (select m b).
Proof.
  revert a b. induction m as [|c m IH]; intros [|x a] [|y b]; simpl;
    try done.
  intros [= H]. destruct c; simpl; by rewrite (IH a b).
Qed.

Lemma select_nil_r {A} (m : list bool) : select m (@nil A) = [].
Proof. by destruct m. Qed.

(** ** Step 1 on a cell *)

Section Strip.
Variable space : Z → bool.

Lemma lstrip_split (s : Py.str) :
  ∃ before, s = before ++ Py.lstrip space s ∧
            Forall (λ c, space c = true) before.
Proof.
  induction s as [|a s (before & Hs & Hb)]; simpl; [by exists []|].
  destruct (space a) eqn:E; [|by exists []].
  exists (a :: before). split; [simpl; by f_equal|by constructor].
Qed.

Lemma rstrip_split (s : Py.str) :
  ∃ after, s = Py.rstrip space s ++ after ∧
           Forall (λ c, space c = true) after.
Proof.
  induction s as [|a s (after & Hs & Ha)]; simpl; [by exists []|].
  destruct (Py.rstrip space s) as [|b r] eqn:E.
  - simpl in Hs. subst after. destruct (space a) eqn:Ea.
    + exists (a :: s). split; [done|by constructor].
    + exists s. split; [done|done].
  - exists after. split; [simpl; by f_equal|done].
Qed.

Lemma lstrip_head (s : Py.str) (a : Z) (r : Py.str) :
  Py.lstrip space s = a :: r → space a = false.
Proof.
  induction s as [|b s IH]; simpl; [done|].
  destruct (space b) eqn:E; [done|]. by intros [= <- _].
Qed.

Lemma rstrip_head (s : Py.str) (a : Z) (r : Py.str) :
  Py.rstrip space s = a :: r → ∃ r', s = a :: r'.
Proof.
  destruct s as [|b s]; simpl; [done|].
  destruct (Py.rstrip space s); [destruct (space b)|]; intros [= <- _]; eauto.
Qed.

Lemma rstrip_last (s : Py.str) (a : Z) (r : Py.str) :
  Py.rstrip space s = r ++ [a] → space a = false.
Proof.
  revert r. induction s as [|b s IH]; intros r; simpl.
  - by destruct r.
  - destruct (Py.rstrip space s) as [|c t] eqn:E.
    + destruct (space b) eqn:Eb; [by destruct r|].
      destruct r as [|? [|? ?]]; [|done..]. by intros [= <-].
    + destruct r as [|d r]; [done|]. intros [= _ H]. by apply (IH r).
Qed.

Lemma lstrip_id (s : Py.str) :
  match s with a :: _ => space a = false | [] => True end →
  Py.lstrip space s = s.
Proof. destruct s as [|a s]; simpl; [done|]. by intros ->. Qed.

End Strip.

Lemma starts_with_space_head (s : Py.str) :
  starts_with_space s = false ↔
    match s with a :: _ => Py.is_space a = false | [] => True end.
Proof. by destruct s. Qed.

Lemma ends_with_space_snoc (s : Py.str) (a : Z) :
  ends_with_space (s ++ [a]) = Py.is_space a.
Proof.
  induction s as [|b s IH]; [done|].
  simpl. by destruct (s ++ [a]) eqn:E; [destruct s|].
Qed.

Lemma ends_with_space_last (s : Py.str) :
  ends_with_space s = false ↔
    ∀ r a, s = r ++ [a] → Py.is_space a = false.
Proof.
  induction s as [|a r _] using rev_ind.
  - split; [|done]. intros _ [|? ?] ?; done.
  - rewrite ends_with_space_snoc. split.
    + intros H r' a' [-> ->]%app_inj_tail. done.
    + intros H. by apply (H r a).
Qed.

Lemma strip_trimmed (s : Py.str) :
  starts_with_space (Py.strip s) = false ∧ ends_with_space (Py.strip s) = false.
Proof.
  unfold Py.strip. split.
  - apply starts_with_space_head.
    destruct (Py.rstrip _ _) as [|a r] eqn:E; [done|].
    apply rstrip_head in E as [r' E]. by apply lstrip_head in E.
  - apply ends_with_space_last. intros r a E. by apply rstrip_last in E.
Qed.

Lemma rstrip_id (s : Py.str) :
  ends_with_space s = false → Py.rstrip Py.is_space s = s.
Proof.
  induction s as [|a s IH]; simpl; [done|].
  destruct s as [|b s].
  - simpl. by intros ->.
  - intros H. rewrite (IH H). done.
Qed.

Lemma strip_id (s : Py.str) :
  starts_with_space s = false → ends_with_space s = false → Py.strip s = s.
Proof.
  intros H1%starts_with_space_head H2. unfold Py.strip.
  by rewrite (lstrip_id _ _ H1), rstrip_id.
Qed.

Lemma strip_idemp (s : Py.str) : Py.strip (Py.strip s) = Py.strip s.
Proof. destruct (strip_trimmed s). by apply strip_id. Qed.

(** [strip] removes whitespace at the two ends, and nothing else. *)
Lemma strip_stripped (s : Py.str) : stripped s (Py.strip s).
Proof.
  destruct (lstrip_split Py.is_space s) as (before & Hs & Hb).
  destruct (rstrip_split Py.is_space (Py.lstrip Py.is_space s))
    as (after & Hs' & Ha).
  exists before, after. split_and!; [|done|done|apply strip_trimmed..].
  unfold Py.strip. by rewrite <- Hs'.
Qed.

Lemma strip_nil_blank (s : Py.str) : Py.strip s = [] ↔ blank s.
Proof.
  split.
  - intros E. destruct (strip_stripped s) as (b & a & -> & Hb & Ha & _).
    rewrite E. simpl. by apply Forall_app.
  - unfold blank, Py.strip. induction 1 as [|a s Ha Hs IH]; [done|].
    simpl. by rewrite Ha.
Qed.

(** What is stripped is determined. *)
Lemma stripped_unique (s t : Py.str) : stripped s t → t = Py.strip s.
Proof.
  intros (before & after & -> & Hb & Ha & H1 & H2).
  destruct t as [|c t].
  { symmetry. apply strip_nil_blank. by apply Forall_app. }
  unfold Py.strip.
  assert (Py.lstrip Py.is_space (before ++ (c :: t) ++ after)
            = (c :: t) ++ after) as ->.
  { induction Hb as [|d b Hd Hb IH]; simpl; [|by rewrite Hd].
    simpl in H1. by rewrite H1. }
  clear Hb before H1.
  assert (Py.rstrip Py.is_space after = []) as Hafter.
  { clear H2. induction Ha as [|e a He Ha IH]; simpl; [done|].
    by rewrite IH, He. }
  revert c H2. induction t as [|d t IH]; intros c H2; simpl in *.
  - by rewrite Hafter, H2.
  - rewrite <- (IH d) by done. done.
Qed.

Lemma replace_empty_normalize (c : option Py.str) :
  replace_empty (normalize_cell c) = normalize_cell c.
Proof.
  unfold normalize_cell, strip_cell. generalize (Py.strip (astype_str c)).
  intros s. simpl. case_bool_decide; [done|]. simpl. by case_bool_decide.
Qed.

Lemma normalize_cell_trimmed (c : option Py.str) (s : Py.str) :
  normalize_cell c = Some s → trimmed s.
Proof.
  unfold normalize_cell, replace_empty, strip_cell.
  case_bool_decide as E; [done|].
  intros [= <-]. split; [done|]. apply strip_trimmed.
Qed.

Lemma normalize_cell_twice (c : option Py.str) :
  normalize_cell (normalize_cell c)
    = Some (default (utf8 "nan") (normalize_cell c)).
Proof.
  destruct (normalize_cell c) as [s|] eqn:E; [|done].
  destruct (normalize_cell_trimmed _ _ E) as (Hne & H1 & H2).
  unfold normalize_cell, replace_empty, strip_cell. simpl.
  rewrite (strip_id _ H1 H2). by case_bool_decide.
Qed.

(** *** The downcast of step 4 *)

Lemma replace_empty_select_normalize (m : list bool) (l : list (option Py.str)) :
  replace_empty <$> select m (normalize_cell <$> l)
    = select m (normalize_cell <$> l).
Proof.
  rewrite select_fmap, <- list_fmap_compose. apply list_fmap_ext.
  intros _ x _. apply replace_empty_normalize.
Qed.

Lemma all_null_select (m : list bool) (l : list (option Py.str)) :
  all_null l = true → all_null (select m l) = true.
Proof. apply select_forallb. Qed.

Lemma select_const {A B} (m : list bool) (l : list A) (b : B) :
  select m ((λ _, b) <$> l) = (λ _, b) <$> select m l.
Proof. apply select_fmap. Qed.

(** ** What each step leaves *)

Lemma drop_duplicates_inv (key : string) (df d : DataFrame) :
  drop_duplicates key df = Ok d →
  ∃ c, columns df !! key = Some c ∧ d = df_select (negb <$> duplicated c) df.
Proof.
  unfold drop_duplicates. intros H.
  apply bind_Ok_inv in H as (c & Hc%get_col_Ok & H). injection H as <-.
  by exists c.
Qed.

Section StepShapes.
Variable R : runtime.

Lemma coerce_numeric_inv (df df' : DataFrame) (col : string) :
  coerce_numeric R df col = Ok df' →
  ∃ c, columns df !! col = Some c ∧
       df' = set_col col (to_numeric R c) df.
Proof.
  unfold coerce_numeric. intros H.
  apply bind_Ok_inv in H as (c & Hc%get_col_Ok & H). injection H as <-.
  by exists c.
Qed.

Lemma fix_numeric_types_inv (df df' : DataFrame) :
  fix_numeric_types R df = Ok df' →
  index df' = index df ∧
  ∀ name,
    (name ∈ numeric_columns →
     ∃ c, columns df !! name = Some c ∧
          columns df' !! name = Some (to_numeric R c)) ∧
    (name ∉ numeric_columns → columns df' !! name = columns df !! name).
Proof.
  intros H. split.
  { assert ("" ∉ numeric_columns) as Hn by compute_done.
    by destruct (fix_numeric_types_other _ _ _ "" Hn H). }
  intros name. split;
    [|intros Hn; by destruct (fix_numeric_types_other _ _ _ name Hn H)].
  rewrite fix_numeric_types_unfold in H.
  apply bind_Ok_inv in H as (d1 & (c1 & Hc1 & ->)%coerce_numeric_inv & H).
  apply bind_Ok_inv in H as (d2 & (c2 & Hc2 & ->)%coerce_numeric_inv & H).
  apply bind_Ok_inv in H as (d3 & (c3 & Hc3 & ->)%coerce_numeric_inv & H).
  apply coerce_numeric_inv in H as (c4 & Hc4 & ->).
  simpl in *.
  rewrite lookup_insert_ne in Hc2 by done.
  do 2 (rewrite lookup_insert_ne in Hc3 by done).
  do 3 (rewrite lookup_insert_ne in Hc4 by done).
  unfold numeric_columns. rewrite !elem_of_cons, elem_of_nil.
  intros [->|[->|[->|[->|[]]]]].
  - exists c1. split; [done|]. do 3 (rewrite lookup_insert_ne by done).
    apply lookup_insert_eq.
  - exists c2. split; [done|]. do 2 (rewrite lookup_insert_ne by done).
    apply lookup_insert_eq.
  - exists c3. split; [done|]. rewrite lookup_insert_ne by done.
    apply lookup_insert_eq.
  - exists c4. split; [done|]. apply lookup_insert_eq.
Qed.

End StepShapes.

Lemma fix_postal_code_other (R : runtime) (df df' : DataFrame)
    (name : string) :
  name ≠ "postal_code" →
  fix_postal_code R df = Ok df' →
  columns df' !! name = columns df !! name ∧ index df' = index df.
Proof.
  intros Hn. unfold fix_postal_code.
  destruct (columns df !! "postal_code") as [c|]; [|by intros [= <-]].
  intros H. apply bind_Ok_inv in H as (c' & _ & H). injection H as <-.
  simpl. by rewrite lookup_insert_ne.
Qed.

Lemma remove_without_province_inv (df d : DataFrame) :
  remove_without_province df = Ok d →
  ∃ prov, columns df !! "province" = Some prov ∧
    d = df_select (notna (col_replace_empty prov))
          (set_col "province" (col_replace_empty prov) df).
Proof.
  unfold remove_without_province. intros H.
  apply bind_Ok_inv in H as (c & Hc%get_col_Ok & H).
  apply bind_Ok_inv in H as (c' & Hc'%get_col_Ok & H).
  simpl in Hc'. rewrite lookup_insert_eq in Hc'. injection Hc' as <-.
  injection H as <-. by exists c.
Qed.

Lemma downcast_replace_empty (m : list bool) (c : column) :
  col_replace_empty (col_select m (normalize_column c))
    = downcast (col_select m (normalize_column c)).
Proof.
  destruct c as [l|l]; [|done]. unfold normalize_column.
  pose proof (replace_empty_select_normalize m l) as Hl.
  revert Hl. generalize (normalize_cell <$> l). intros L HL.
  unfold convert. destruct L as [|x L]; [simpl; by rewrite select_nil_r|].
  destruct (all_null (x :: L)); [done|]. simpl. by rewrite HL.
Qed.

Lemma cells_downcast (c : column) : cells (downcast c) = cells c.
Proof. destruct c; [apply cells_convert|done]. Qed.

Lemma notna_downcast (c : column) : notna (downcast c) = notna c.
Proof. unfold notna, isna. by rewrite cells_downcast. Qed.

Lemma with_province_eq (pid prov : column) :
  with_province pid prov
    = notna (col_select (first_ids pid) (normalize_column prov)).
Proof.
  unfold with_province. by rewrite downcast_replace_empty, notna_downcast.
Qed.

Section Shape.
Variable R : runtime.

(** The frame after step 4, column by column. *)
Lemma steps_1_to_4_shape (df d : DataFrame) (pid prov : column) :
  columns df !! "property_id" = Some pid →
  columns df !! "province" = Some prov →
  steps_1_to_4 R df = Ok d →
  let m1 := first_ids pid in
  let m2 := with_province pid prov in
  index d = select m2 (select m1 (index df)) ∧
  columns d !! "province"
    = Some (col_select m2 (downcast (col_select m1 (normalize_column prov)))) ∧
  ∀ name,
    (name ∈ numeric_columns →
     ∃ c, columns df !! name = Some c ∧
       columns d !! name
         = Some (col_select m2
                   (to_numeric R (col_select m1 (normalize_column c))))) ∧
    (name ∉ numeric_columns → name ≠ "postal_code" → name ≠ "province" →
     columns d !! name
       = (λ c, col_select m2 (col_select m1 (normalize_column c)))
           <$> columns df !! name).
Proof.
  intros Hpid Hprov H. unfold steps_1_to_4 in H.
  apply bind_Ok_inv in H as (d2 & (c & Hc & ->)%drop_duplicates_inv & H).
  simpl in Hc. rewrite lookup_fmap, Hpid in Hc. injection Hc as <-.
  apply bind_Ok_inv in H as (d3 & H3 & H).
  apply bind_Ok_inv in H as (d4 & H4 & H5).
  apply fix_numeric_types_inv in H3 as (Hi3 & H3).
  apply remove_without_province_inv in H5 as (prov4 & Hprov4 & ->).
  assert (prov4 = col_select (first_ids pid) (normalize_column prov)) as ->.
  { destruct (fix_postal_code_other _ _ _ "province" ltac:(done) H4) as [E _].
    rewrite E in Hprov4. destruct (H3 "province") as [_ E3].
    rewrite E3 in Hprov4 by compute_done.
    rewrite lookup_df_select in Hprov4. simpl in Hprov4.
    rewrite lookup_fmap, Hprov in Hprov4. by injection Hprov4. }
  intros m1 m2. fold (with_province pid prov). fold m2. split_and!.
  { simpl. destruct (fix_postal_code_other _ _ _ "" ltac:(done) H4) as [_ ->].
    by rewrite Hi3. }
  { rewrite lookup_df_select. simpl. rewrite lookup_insert_eq. simpl.
    by rewrite downcast_replace_empty. }
  intros name. split.
  - intros Hn. destruct (H3 name) as [E3 _].
    destruct (E3 Hn) as (c2 & Hc2 & Hc3).
    rewrite lookup_df_select in Hc2. simpl in Hc2. rewrite lookup_fmap in Hc2.
    destruct (columns df !! name) as [c|] eqn:Hc; [|done].
    injection Hc2 as <-. exists c. split; [done|].
    rewrite lookup_df_select. simpl.
    assert (name ≠ "province" ∧ name ≠ "postal_code") as [Hnp Hpc].
    { unfold numeric_columns in Hn. rewrite !elem_of_cons, elem_of_nil in Hn.
      destruct Hn as [->|[->|[->|[->|[]]]]]; done. }
    rewrite lookup_insert_ne by done.
    destruct (fix_postal_code_other _ _ _ name Hpc H4) as [-> _].
    by rewrite Hc3.
  - intros Hn Hpc Hnp. rewrite lookup_df_select. simpl.
    rewrite lookup_insert_ne by done.
    destruct (fix_postal_code_other _ _ _ name Hpc H4) as [-> _].
    destruct (H3 name) as [_ ->]; [|done].
    rewrite lookup_df_select. simpl. rewrite lookup_fmap.
    by destruct (columns df !! name).
Qed.

End Shape.

(** ** When the function returns *)

Lemma is_ok_Ok {A} (r : result A) : is_ok r = true ↔ ∃ a, r = Ok a.
Proof.
  destruct r as [a|e]; simpl; split; try done; [by exists a|by intros [? ?]].
Qed.

Section Returns.
Variable R : runtime.

Lemma coerce_numeric_Ok (df : DataFrame) (col : string) (c : column) :
  columns df !! col = Some c →
  coerce_numeric R df col = Ok (set_col col (to_numeric R c) df).
Proof.
  intros Hc%get_col_Ok. unfold coerce_numeric. by rewrite Hc, bind_Ok.
Qed.

Lemma fix_numeric_types_Ok (df : DataFrame) :
  (∀ name, name ∈ numeric_columns → is_Some (columns df !! name)) →
  is_ok (fix_numeric_types R df) = true.
Proof.
  intros H. rewrite fix_numeric_types_unfold.
  destruct (H "price") as [c1 H1]; [compute_done|].
  destruct (H "living_area") as [c2 H2]; [compute_done|].
  destruct (H "number_rooms") as [c3 H3]; [compute_done|].
  destruct (H "facades") as [c4 H4]; [compute_done|].
  rewrite (coerce_numeric_Ok _ _ _ H1), bind_Ok.
  rewrite (coerce_numeric_Ok _ _ c2), bind_Ok
    by (simpl; by rewrite lookup_insert_ne).
  rewrite (coerce_numeric_Ok _ _ c3), bind_Ok
    by (simpl; by do 2 (rewrite lookup_insert_ne by done)).
  rewrite (coerce_numeric_Ok _ _ c4)
    by (simpl; by do 3 (rewrite lookup_insert_ne by done)).
  done.
Qed.

Lemma clean_immo_data_ok_steps (df : DataFrame) :
  is_ok (clean_immo_data R df) = is_ok (steps_1_to_4 R df).
Proof.
  destruct (steps_1_to_4 R df) as [d|e] eqn:E.
  - destruct (clean_immo_data_returns _ _ _ E) as (p & a & _ & _ & ->). done.
  - by rewrite clean_immo_data_split, E.
Qed.

End Returns.

Section ReturnsIff.
Variable R : runtime.

Lemma steps_1_to_4_ok_iff (df : DataFrame) :
  is_ok (steps_1_to_4 R df) = true ↔
    (∀ name, name ∈ required_columns → is_Some (columns df !! name)) ∧
    (∀ pid c,
       columns df !! "property_id" = Some pid →
       columns df !! "postal_code" = Some c →
       is_ok (astype_Int64 R "postal_code"
                (col_select (negb <$> duplicated (normalize_column pid))
                   (normalize_column c))) = true).
Proof.
  split.
  - intros (d & H)%is_ok_Ok. unfold steps_1_to_4 in H.
    apply bind_Ok_inv in H as (d2 & (pid & Hpid & ->)%drop_duplicates_inv & H).
    apply bind_Ok_inv in H as (d3 & H3 & H).
    apply bind_Ok_inv in H as (d4 & H4 & H5).
    apply remove_without_province_inv in H5 as (prov4 & Hprov4 & _).
    pose proof (fix_numeric_types_inv _ _ _ H3) as (_ & Hcols).
    simpl in Hpid. rewrite lookup_fmap in Hpid.
    assert (∀ name c, columns (df_select (negb <$> duplicated pid)
                                 (strip_whitespace df)) !! name = Some c →
                      is_Some (columns df !! name)) as Hback.
    { intros name c. rewrite lookup_df_select. simpl. rewrite lookup_fmap.
      by destruct (columns df !! name). }
    split.
    + intros name Hn. unfold required_columns in Hn.
      rewrite !elem_of_cons, elem_of_nil in Hn.
      destruct Hn as [->|[->|[->|[->|[->|[->|[]]]]]]].
      * by destruct (columns df !! "property_id").
      * destruct (Hcols "price") as [(c & Hc & _) _]; [compute_done|eauto].
      * destruct (Hcols "living_area") as [(c & Hc & _) _];
          [compute_done|eauto].
      * destruct (Hcols "number_rooms") as [(c & Hc & _) _];
          [compute_done|eauto].
      * destruct (Hcols "facades") as [(c & Hc & _) _]; [compute_done|eauto].
      * destruct (fix_postal_code_other _ _ _ "province" ltac:(done) H4)
          as [E _].
        rewrite E in Hprov4. destruct (Hcols "province") as [_ E3].
        rewrite E3 in Hprov4 by compute_done. eauto.
    + intros pid' c Hpid' Hc. rewrite Hpid' in Hpid. injection Hpid as <-.
      destruct (Hcols "postal_code") as [_ E3].
      specialize (E3 ltac:(compute_done)).
      rewrite lookup_df_select in E3. simpl in E3.
      rewrite lookup_fmap, Hc in E3. simpl in E3.
      unfold fix_postal_code in H4. rewrite E3 in H4.
      apply bind_Ok_inv in H4 as (c' & Hc' & _).
      unfold astype_Int64_str in Hc'.
      apply bind_Ok_inv in Hc' as (zs & -> & _). done.
  - intros [Hreq Hpost].
    destruct (Hreq "property_id") as [pid Hpid]; [compute_done|].
    destruct (Hreq "province") as [prov Hprov]; [compute_done|].
    unfold steps_1_to_4, drop_duplicates.
    rewrite (proj2 (get_col_Ok "property_id" (strip_whitespace df)
                      (normalize_column pid)))
      by (simpl; by rewrite lookup_fmap, Hpid).
    rewrite !bind_Ok.
    set (d2 := df_select _ _).
    assert (∀ name c, columns df !! name = Some c →
      columns d2 !! name
        = Some (col_select (negb <$> duplicated (normalize_column pid))
                  (normalize_column c))) as Hd2.
    { intros name c Hc. unfold d2. rewrite lookup_df_select. simpl.
      by rewrite lookup_fmap, Hc. }
    destruct (fix_numeric_types R d2) as [d3|] eqn:H3.
    2:{ pose proof (fix_numeric_types_Ok R d2) as Hok.
        rewrite H3 in Hok. apply Hok. intros name Hn.
        destruct (Hreq name) as [c Hc].
        - unfold numeric_columns in Hn. unfold required_columns.
          rewrite !elem_of_cons, elem_of_nil in Hn. rewrite !elem_of_cons.
          clear -Hn. tauto.
        - rewrite (Hd2 _ _ Hc). eauto. }
    rewrite bind_Ok.
    pose proof (fix_numeric_types_inv _ _ _ H3) as (_ & Hcols).
    destruct (fix_postal_code R d3) as [d4|] eqn:H4.
    2:{ unfold fix_postal_code in H4.
        destruct (Hcols "postal_code") as [_ E3].
        rewrite E3 in H4 by compute_done.
        unfold d2 in H4. rewrite lookup_df_select in H4. simpl in H4.
        rewrite lookup_fmap in H4.
        destruct (columns df !! "postal_code") as [c|] eqn:Hc; [|done].
        simpl in H4. specialize (Hpost _ _ Hpid eq_refl).
        unfold astype_Int64_str in H4.
        by destruct (astype_Int64 R "postal_code" _). }
    rewrite bind_Ok. unfold remove_without_province.
    destruct (fix_postal_code_other _ _ _ "province" ltac:(done) H4) as [E _].
    destruct (Hcols "province") as [_ E3].
    rewrite E3, (Hd2 _ _ Hprov) in E by compute_done.
    rewrite (proj2 (get_col_Ok _ _ _) E), bind_Ok.
    by rewrite (proj2 (get_col_Ok "province" _ _) (lookup_insert_eq _ _ _)).
Qed.

End ReturnsIff.

Lemma clean_immo_data_required (R : runtime)
    (df out : DataFrame) :
  clean_immo_data R df = Ok out →
  ∃ pid prov price area,
    columns df !! "property_id" = Some pid ∧
    columns df !! "province" = Some prov ∧
    columns df !! "price" = Some price ∧
    columns df !! "living_area" = Some area.
Proof.
  intros H.
  assert (is_ok (clean_immo_data R df) = true) as Hok by by rewrite H.
  rewrite clean_immo_data_ok_steps in Hok.
  apply steps_1_to_4_ok_iff in Hok as [Hreq _].
  destruct (Hreq "property_id") as [pid ?]; [compute_done|].
  destruct (Hreq "province") as [prov ?]; [compute_done|].
  destruct (Hreq "price") as [price ?]; [compute_done|].
  destruct (Hreq "living_area") as [area ?]; [compute_done|].
  by exists pid, prov, price, area.
Qed.

(** ** When the function raises *)

Section Errors.
Variable R : runtime.

Lemma coerce_numeric_Raise (df : DataFrame) (col : string) :
  columns df !! col = None →
  coerce_numeric R df col = Raise (KeyError col).
Proof. intros H. unfold coerce_numeric, get_col. by rewrite H. Qed.

Lemma traverse_error {A B} (f : A → result B) (l : list A) (e : error) :
  traverse f l = Raise e → ∃ x, x ∈ l ∧ f x = Raise e.
Proof.
  induction l as [|y l IH]; simpl; [done|].
  destruct (f y) as [b|e'] eqn:Ey; simpl.
  - destruct (traverse f l) as [bs|e'']; simpl; [done|].
    intros [= <-]. destruct (IH eq_refl) as (x & Hx & Hfx).
    exists x. split; [by right|done].
  - intros [= <-]. exists y. split; [by left|done].
Qed.

Lemma astype_Int64_error (name : string) (c : column) (e : error) :
  astype_Int64 R name c = Raise e → e = CastError name.
Proof.
  destruct c as [l|l]; simpl; intros (x & _ & Hx)%traverse_error.
  - unfold int64_of_obj in Hx. destruct x as [s|]; [|done].
    destruct (Py.int_of_str _ _ s) as [z|]; [|congruence].
    destruct (F64.in_int64 z); congruence.
  - unfold int64_of_float in Hx. destruct (F64.isnan x); [done|].
    destruct (F64.to_Z_exact x) as [z|]; [|congruence].
    destruct (F64.in_int64 z); congruence.
Qed.

Lemma steps_1_to_3_cases (df : DataFrame) :
  match first_missing df with
  | Some name => steps_1_to_4 R df = Raise (KeyError name)
  | None =>
      ∃ pid d3,
        columns df !! "property_id" = Some pid ∧
        steps_1_to_4 R df
          = (d4 ← fix_postal_code R d3; remove_without_province d4) ∧
        ∀ name, name ∉ numeric_columns →
          columns d3 !! name
            = (λ c, col_select (negb <$> duplicated (normalize_column pid))
                      (normalize_column c)) <$> columns df !! name
  end.
Proof.
  unfold first_missing, steps_1_to_4, drop_duplicates, get_col. simpl.
  rewrite lookup_fmap.
  destruct (columns df !! "property_id") as [pid|] eqn:Hpid; simpl; [|done].
  set (m := negb <$> duplicated (normalize_column pid)).
  set (d2 := df_select m (strip_whitespace df)).
  assert (∀ name, columns d2 !! name
            = (λ c, col_select m (normalize_column c)) <$> columns df !! name)
    as Hd2.
  { intros name. unfold d2. rewrite lookup_df_select. simpl.
    rewrite lookup_fmap. by destruct (columns df !! name). }
  rewrite fix_numeric_types_unfold.
  destruct (columns df !! "price") as [c1|] eqn:H1; simpl.
  2:{ by rewrite coerce_numeric_Raise by (by rewrite Hd2, H1). }
  rewrite (coerce_numeric_Ok R d2 "price" (col_select m (normalize_column c1)))
    by (by rewrite Hd2, H1).
  rewrite bind_Ok.
  destruct (columns df !! "living_area") as [c2|] eqn:H2; simpl.
  2:{ by rewrite coerce_numeric_Raise
        by (simpl; by rewrite lookup_insert_ne, Hd2, H2). }
  rewrite (coerce_numeric_Ok R _ "living_area"
             (col_select m (normalize_column c2)))
    by (simpl; by rewrite lookup_insert_ne, Hd2, H2).
  rewrite bind_Ok.
  destruct (columns df !! "number_rooms") as [c3|] eqn:H3; simpl.
  2:{ by rewrite coerce_numeric_Raise
        by (simpl; do 2 (rewrite lookup_insert_ne by done);
            by rewrite Hd2, H3). }
  rewrite (coerce_numeric_Ok R _ "number_rooms"
             (col_select m (normalize_column c3)))
    by (simpl; do 2 (rewrite lookup_insert_ne by done); by rewrite Hd2, H3).
  rewrite bind_Ok.
  destruct (columns df !! "facades") as [c4|] eqn:H4; simpl.
  2:{ by rewrite coerce_numeric_Raise
        by (simpl; do 3 (rewrite lookup_insert_ne by done);
            by rewrite Hd2, H4). }
  rewrite (coerce_numeric_Ok R _ "facades"
             (col_select m (normalize_column c4)))
    by (simpl; do 3 (rewrite lookup_insert_ne by done); by rewrite Hd2, H4).
  rewrite bind_Ok.
  eexists pid, _. split; [done|]. split; [reflexivity|].
  intros name Hn. unfold numeric_columns in Hn.
  rewrite !not_elem_of_cons in Hn. destruct Hn as (N1 & N2 & N3 & N4 & _).
  simpl. do 4 (rewrite lookup_insert_ne by done). apply Hd2.
Qed.

Lemma clean_immo_data_Raise (df : DataFrame) (e : error) :
  clean_immo_data R df = Raise e ↔ steps_1_to_4 R df = Raise e.
Proof.
  destruct (steps_1_to_4 R df) as [d|e'] eqn:E.
  - destruct (clean_immo_data_returns _ _ _ E) as (p & a & _ & _ & ->). done.
  - by rewrite clean_immo_data_split, E.
Qed.

End Errors.

(** ** The output in terms of the input *)

Section Output.
Variable R : runtime.

(** The output, column by column, in terms of the input. *)
Lemma clean_immo_data_shape (df out : DataFrame)
    (pid prov price area : column) :
  columns df !! "property_id" = Some pid →
  columns df !! "province" = Some prov →
  columns df !! "price" = Some price →
  columns df !! "living_area" = Some area →
  clean_immo_data R df = Ok out →
  let m1 := first_ids pid in
  let m' := later R pid prov price area in
  let m := survivors R pid prov price area in
  index out = select m (index df) ∧
  columns out !! "province"
    = Some (col_select m' (downcast (col_select m1 (normalize_column prov)))) ∧
  (∀ name c,
     name ∈ numeric_columns → columns df !! name = Some c →
     columns out !! name
       = Some (col_select m' (to_numeric R (col_select m1 (normalize_column c))))) ∧
  (∀ name,
     name ∉ numeric_columns → name ≠ "postal_code" →
     name ≠ "price_per_m2" → name ≠ "province" →
     columns out !! name
       = (λ c, col_select m (normalize_column c)) <$> columns df !! name).
Proof.
  intros Hpid Hprov Hprice Harea H. rewrite clean_immo_data_split in H.
  apply bind_Ok_inv in H as (d & Hd & H).
  apply metric_and_outliers_inv in H as (p & a & Hp & Ha & ->).
  destruct (steps_1_to_4_shape R df d pid prov Hpid Hprov Hd)
    as (Hi & Hpr & Hcols).
  set (m1 := first_ids pid) in *.
  set (m2 := with_province pid prov) in *.
  assert (p = parsed R pid prov price) as Ep.
  { destruct (Hcols "price") as [E _].
    destruct E as (c & Hc & E); [compute_done|].
    assert (c = price) as -> by congruence.
    unfold parsed. fold m1. fold m2. rewrite Hp in E.
    injection E as <-. done. }
  assert (a = parsed R pid prov area) as Ea.
  { destruct (Hcols "living_area") as [E _].
    destruct E as (c & Hc & E); [compute_done|].
    assert (c = area) as -> by congruence.
    unfold parsed. fold m1. fold m2. rewrite Ha in E.
    injection E as <-. done. }
  set (m3 := zip_with andb (inliers p) (inliers a)).
  assert (later R pid prov price area = compose_mask m2 m3) as Em'.
  { unfold later. fold m2. by rewrite <- Ep, <- Ea. }
  intros m1' m' m. unfold m, survivors, m', m1'. rewrite Em'. fold m1.
  clear m m' m1'.
  split_and!.
  - unfold after_outliers. simpl. by rewrite Hi, !select_compose.
  - unfold after_outliers. rewrite lookup_df_select. simpl.
    do 3 (rewrite lookup_insert_ne by done).
    by rewrite Hpr, col_select_compose.
  - intros name c Hn Hc. destruct (Hcols name) as [E _].
    destruct (E Hn) as (c' & Hc' & Hd'). rewrite Hc in Hc'.
    injection Hc' as <-.
    rewrite col_select_compose.
    unfold after_outliers. rewrite lookup_df_select. simpl.
    unfold numeric_columns in Hn. rewrite !elem_of_cons, elem_of_nil in Hn.
    destruct Hn as [->|[->|[->|[->|[]]]]].
    + rewrite lookup_insert_ne by done. rewrite lookup_insert_eq. simpl.
      rewrite Hp in Hd'. injection Hd' as <-. simpl.
      by rewrite select_inliers_l.
    + rewrite lookup_insert_eq. simpl.
      rewrite Ha in Hd'. injection Hd' as <-. simpl.
      by rewrite select_inliers_r.
    + do 3 (rewrite lookup_insert_ne by done). by rewrite Hd'.
    + do 3 (rewrite lookup_insert_ne by done). by rewrite Hd'.
  - intros name Hn Hpc Hppm Hnp. destruct (Hcols name) as [_ E].
    unfold after_outliers. rewrite lookup_df_select. simpl.
    rewrite !lookup_insert_ne.
    + rewrite (E Hn Hpc Hnp). destruct (columns df !! name); simpl; [|done].
      by rewrite !col_select_compose.
    + done.
    + intros <-. apply Hn. compute_done.
    + intros <-. apply Hn. compute_done.
Qed.

End Output.

(** ** The names of the columns *)

Lemma dom_set_col_present (name : string) (c : column) (df : DataFrame) :
  is_Some (columns df !! name) →
  dom (columns (set_col name c df)) = dom (columns df).
Proof.
  intros Hin%elem_of_dom. simpl. rewrite dom_insert_L.
  by apply subseteq_union_1_L, singleton_subseteq_l.
Qed.

Lemma dom_df_select (m : list bool) (df : DataFrame) :
  dom (columns (df_select m df)) = dom (columns df).
Proof. simpl. apply dom_fmap_L. Qed.

(** ** Rectangular frames *)

Section Rectangular.
Variable R : runtime.

Lemma rectangular_df_select (m : list bool) (df : DataFrame) :
  rectangular df → rectangular (df_select m df).
Proof.
  intros Hdf name c. rewrite lookup_df_select.
  intros (c0 & H0 & ->)%fmap_Some. rewrite cells_col_select. simpl.
  apply select_length_same. by eapply Hdf.
Qed.

Lemma rectangular_set_col (name : string) (c : column) (df : DataFrame) :
  rectangular df → length (cells c) = length (index df) →
  rectangular (set_col name c df).
Proof.
  intros Hdf Hc other c'. simpl.
  destruct (decide (other = name)) as [->|Hne].
  - rewrite lookup_insert_eq. by intros [= <-].
  - rewrite lookup_insert_ne by done. apply Hdf.
Qed.

Lemma length_cells_normalize (c : column) :
  length (cells (normalize_column c)) = length (cells c).
Proof.
  destruct c; [|done]. rewrite cells_normalize_column. simpl.
  by rewrite !length_fmap.
Qed.

Lemma length_cells_to_numeric (c : column) :
  length (cells (to_numeric R c)) = length (cells c).
Proof.
  destruct c; simpl; rewrite !length_fmap; [|done].
  apply to_numeric_obj_length.
Qed.

Lemma length_cells_replace_empty (c : column) :
  length (cells (col_replace_empty c)) = length (cells c).
Proof.
  destruct c; [|done]. rewrite cells_col_replace_empty. simpl.
  by rewrite !length_fmap.
Qed.

Lemma rectangular_strip_whitespace (df : DataFrame) :
  rectangular df → rectangular (strip_whitespace df).
Proof.
  intros Hdf name c. simpl. rewrite lookup_fmap.
  intros (c0 & H0 & ->)%fmap_Some. rewrite length_cells_normalize.
  by eapply Hdf.
Qed.

Lemma rectangular_coerce_numeric (df df' : DataFrame) (col : string) :
  rectangular df → coerce_numeric R df col = Ok df' → rectangular df'.
Proof.
  intros Hdf H. unfold coerce_numeric in H.
  apply bind_Ok_inv in H as (c & Hc%get_col_Ok & [= <-]).
  apply rectangular_set_col; [done|]. rewrite length_cells_to_numeric.
  by eapply Hdf.
Qed.

Lemma rectangular_fix_numeric_types (df df' : DataFrame) :
  rectangular df → fix_numeric_types R df = Ok df' → rectangular df'.
Proof.
  intros Hdf. rewrite fix_numeric_types_unfold. intros H.
  apply bind_Ok_inv in H as (d1 & H1 & H).
  apply bind_Ok_inv in H as (d2 & H2 & H).
  apply bind_Ok_inv in H as (d3 & H3 & H).
  eauto using rectangular_coerce_numeric.
Qed.

Lemma traverse_length {A B} (f : A → result B) (l : list A) (l' : list B) :
  traverse f l = Ok l' → length l' = length l.
Proof.
  revert l'. induction l as [|x l IH]; simpl; intros l'.
  - by intros [= <-].
  - intros H. apply bind_Ok_inv in H as (y & _ & H).
    apply bind_Ok_inv in H as (ys & Hys & [= <-]). simpl.
    by rewrite (IH _ Hys).
Qed.

Lemma rectangular_fix_postal_code (df df' : DataFrame) :
  rectangular df → fix_postal_code R df = Ok df' → rectangular df'.
Proof.
  intros Hdf. unfold fix_postal_code.
  destruct (columns df !! "postal_code") as [c|] eqn:Hc.
  - intros H. apply bind_Ok_inv in H as (c' & Hc' & [= <-]).
    apply rectangular_set_col; [done|]. rewrite <- (Hdf _ _ Hc).
    unfold astype_Int64_str in Hc'.
    apply bind_Ok_inv in Hc' as (zs & Hzs & [= <-]). simpl.
    rewrite !length_fmap.
    destruct c as [l|l]; simpl in *; rewrite length_fmap;
      by eapply traverse_length.
  - by intros [= <-].
Qed.

Lemma rectangular_remove_without_province (df df' : DataFrame) :
  rectangular df → remove_without_province df = Ok df' → rectangular df'.
Proof.
  intros Hdf H. unfold remove_without_province in H.
  apply bind_Ok_inv in H as (c & Hc%get_col_Ok & H).
  apply bind_Ok_inv in H as (c' & _ & [= <-]).
  apply rectangular_df_select, rectangular_set_col; [done|].
  rewrite length_cells_replace_empty. by eapply Hdf.
Qed.

Lemma rectangular_after_outliers (df : DataFrame) (price area : list float) :
  rectangular df →
  columns df !! "price" = Some (NumCol price) →
  columns df !! "living_area" = Some (NumCol area) →
  rectangular (after_outliers df price area).
Proof.
  intros Hdf Hp Ha. unfold after_outliers.
  pose proof (Hdf _ _ Hp) as Lp. pose proof (Hdf _ _ Ha) as La.
  simpl in Lp, La. rewrite length_fmap in Lp, La.
  apply rectangular_df_select.
  repeat apply rectangular_set_col; [done|..]; simpl; rewrite length_fmap.
  - unfold Series.div. rewrite length_zip_with. lia.
  - by rewrite remove_outliers_length.
  - by rewrite remove_outliers_length.
Qed.

Lemma rectangular_steps_1_to_4 (df d : DataFrame) :
  rectangular df → steps_1_to_4 R df = Ok d → rectangular d.
Proof.
  intros Hdf Hd. unfold steps_1_to_4 in Hd.
  apply bind_Ok_inv in Hd as (d2 & H2 & Hd).
  apply bind_Ok_inv in Hd as (d3 & H3 & Hd).
  apply bind_Ok_inv in Hd as (d4 & H4 & H5).
  eapply rectangular_remove_without_province; [|done].
  eapply rectangular_fix_postal_code; [|done].
  eapply rectangular_fix_numeric_types; [|done].
  unfold drop_duplicates in H2.
  apply bind_Ok_inv in H2 as (c & _ & [= <-]).
  by apply rectangular_df_select, rectangular_strip_whitespace.
Qed.

End Rectangular.

(** ** A series with one value *)

Section SingleValue.

Lemma finite_Prim2SF (x : float) :
  finite x ↔ (∃ s, Prim2SF x = S754_zero s) ∨
             (∃ s m e, Prim2SF x = S754_finite s m e).
Proof.
  unfold finite.
  rewrite isnan_false_Prim2SF.
  assert (F64.isinf x = false ↔ ¬ ∃ s, Prim2SF x = S754_infinity s) as ->.
  { rewrite <- isinf_Prim2SF. by destruct (F64.isinf x). }
  destruct (Prim2SF x) as [s|s| |s m e]; split.
  - eauto.
  - intros _. split; [done|]. by intros [? ?].
  - intros [_ H]. destruct H. eauto.
  - intros [[? ?]|(? & ? & ? & ?)]; done.
  - by intros [? _].
  - intros [[? ?]|(? & ? & ? & ?)]; done.
  - eauto 6.
  - intros _. split; [done|]. by intros [? ?].
Qed.

Lemma sub_self (x : float) : finite x → Prim2SF (x - x) = S754_zero false.
Proof.
  rewrite finite_Prim2SF, FloatAxioms.sub_spec.
  intros [[s ->]|(s & m & e & ->)]; unfold SF64sub; simpl.
  - by destruct s.
  - by rewrite Z.sub_diag.
Qed.

Lemma mul_zero_zero (a b : float) :
  Prim2SF a = S754_zero false → Prim2SF b = S754_zero false →
  Prim2SF (a * b) = S754_zero false.
Proof. intros Ha Hb. by rewrite FloatAxioms.mul_spec, Ha, Hb. Qed.

Lemma same_number_Prim2SF (x y : float) :
  Prim2SF x = Prim2SF y ∨
  ((∃ s, Prim2SF x = S754_zero s) ∧ (∃ s, Prim2SF y = S754_zero s)) →
  same_number x y.
Proof.
  intros [H|[H1 H2]]; [left; by apply Prim2SF_inj|right].
  by rewrite !iszero_Prim2SF.
Qed.

Lemma add_zero (x z : float) :
  finite x → Prim2SF z = S754_zero false → same_number (x + z) x.
Proof.
  intros Hx Hz. apply same_number_Prim2SF.
  rewrite FloatAxioms.add_spec, Hz.
  apply finite_Prim2SF in Hx as [[s ->]|(s & m & e & ->)];
    unfold SF64add; simpl.
  - right. destruct s; eauto.
  - by left.
Qed.

Lemma sub_zero (x z : float) :
  finite x → Prim2SF z = S754_zero false → same_number (x - z) x.
Proof.
  intros Hx Hz. apply same_number_Prim2SF.
  rewrite FloatAxioms.sub_spec, Hz.
  apply finite_Prim2SF in Hx as [[s ->]|(s & m & e & ->)];
    unfold SF64sub; simpl.
  - right. destruct s; eauto.
  - by left.
Qed.

Lemma same_number_finite (x y : float) :
  same_number x y → finite y → finite x.
Proof.
  intros [->|[Hx _]] Hy; [done|]. apply finite_Prim2SF. left.
  by apply iszero_Prim2SF.
Qed.

Lemma same_number_leb (x y : float) :
  same_number x y → finite y →
  (x <=? y)%float = true ∧ (y <=? x)%float = true.
Proof.
  intros Hxy Hy. rewrite !FloatAxioms.leb_spec. unfold SFleb.
  destruct Hxy as [->|[[s Hs]%iszero_Prim2SF [t Ht]%iszero_Prim2SF]].
  - rewrite SFcompare_refl; [done|].
    apply finite_Prim2SF in Hy as [[s ->]|(s & m & e & ->)]; done.
  - by rewrite Hs, Ht.
Qed.

Lemma same_number_sub_self (x y : float) :
  same_number x y → finite y → Prim2SF (x - x) = S754_zero false.
Proof. intros Hxy Hy. apply sub_self. by eapply same_number_finite. Qed.

Lemma same_number_trans (x y z : float) :
  same_number x y → same_number y z → same_number x z.
Proof.
  intros [->|[Hx Hy]] [->|[Hy' Hz]]; try (by left); by right.
Qed.

End SingleValue.

Section SingleSeries.

Lemma quantile_single (x : float) :
  F64.isnan x = false →
  Series.quantile [x] 0.25 = (x - (x - x) * 0)%float ∧
  Series.quantile [x] 0.75 = (x - (x - x) * 0)%float.
Proof.
  intros Hx. unfold Series.quantile, Series.valid. simpl. rewrite Hx. simpl.
  unfold Series.percentile_linear.
  split; vm_compute; reflexivity.
Qed.

Lemma iqr_bounds_single (x : float) :
  finite x →
  same_number (iqr_bounds [x]).1 x ∧ same_number (iqr_bounds [x]).2 x.
Proof.
  intros Hx. unfold iqr_bounds.
  destruct (quantile_single x) as [-> ->]; [apply Hx|].
  set (q := (x - (x - x) * 0)%float).
  assert (same_number q x) as Hq.
  { apply sub_zero; [done|]. apply mul_zero_zero; [by apply sub_self|done]. }
  assert (finite q) as Hfq by (by eapply same_number_finite).
  assert (Prim2SF (1.5 * (q - q)) = S754_zero false) as Hz.
  { rewrite FloatAxioms.mul_spec, (sub_self q Hfq). reflexivity. }
  cbn [fst snd]. split.
  - eapply same_number_trans; [by apply sub_zero|done].
  - eapply same_number_trans; [by apply add_zero|done].
Qed.

End SingleSeries.


(** ** Sorting and quartiles *)















(** ** Rows by label *)

Lemma select_lookup_true {A} (m : list bool) (l : list A) (j : nat) (x : A) :
  m !! j = Some true → l !! j = Some x → x ∈ select m l.
Proof.
  revert l j. induction m as [|b m IH]; intros [|y l] [|j]; simpl; try done.
  - intros [= ->] [= ->]. by left.
  - intros Hm Hl. destruct b; [right|]; by eapply IH.
Qed.

Lemma select_elem_of {A} (m : list bool) (l : list A) (x : A) :
  x ∈ select m l → ∃ j, m !! j = Some true ∧ l !! j = Some x.
Proof.
  revert l. induction m as [|b m IH]; intros [|y l]; simpl;
    try (by intros ?%elem_of_nil).
  destruct b.
  - intros [->|H]%elem_of_cons; [by exists 0%nat|].
    destruct (IH _ H) as (j & ? & ?). by exists (S j).
  - intros H. destruct (IH _ H) as (j & ? & ?). by exists (S j).
Qed.

Section Labels.
Context {A : Type}.
Implicit Types (idx : list nat) (m : list bool) (l : list A).

(** With labels that are all different, a label is selected exactly when its
    row is. *)
Lemma select_NoDup_elem_of m idx (j n : nat) :
  NoDup idx → idx !! j = Some n →
  n ∈ select m idx ↔ m !! j = Some true.
Proof.
  intros Hnd Hj. split.
  - intros (j' & Hm & Hj')%select_elem_of.
    by rewrite <- (NoDup_lookup _ _ _ _ Hnd Hj' Hj).
  - intros Hm. by eapply select_lookup_true.
Qed.



End Labels.

Lemma elem_of_select_sub {A} (m : list bool) (l : list A) (x : A) :
  x ∈ select m l → x ∈ l.
Proof. apply elem_of_select. Qed.

(** ** The rows within bounds *)



(** *** The dtype a replacement leaves *)

Lemma all_null_Forall (l : list (option Py.str)) :
  all_null l = true ↔ Forall (λ c, c = None) l.
Proof.
  unfold all_null. rewrite forallb_forall, Forall_forall.
  split; intros H c Hc.
  - apply list_elem_of_In, H in Hc. by destruct c.
  - apply list_elem_of_In, H in Hc. by rewrite Hc.
Qed.

Lemma convert_float (l : list (option Py.str)) :
  (∃ f, convert l = NumCol f) ↔ l ≠ [] ∧ Forall (λ c, c = None) l.
Proof.
  rewrite <- all_null_Forall. unfold convert.
  destruct l as [|c l]; [split; [by intros [? ?]|by intros [? _]]|].
  destruct (all_null (c :: l)); split; try done.
  - eauto.
  - by intros [? ?].
  - by intros [_ ?].
Qed.

(** Step 1 on one cell. *)
Lemma normalize_cell_cases (c : option Py.str) :
  (c = None → normalize_cell c = Some (utf8 "nan")) ∧
  (normalize_cell c = None ↔ ∃ s, c = Some s ∧ blank s) ∧
  (∀ s, c = Some s → ¬ blank s →
     ∃ t, normalize_cell c = Some t ∧ stripped s t).
Proof.
  split_and!.
  - by intros ->.
  - rewrite normalize_cell_None. by setoid_rewrite strip_nil_blank.
  - intros s -> Hs. exists (Py.strip s). split; [|apply strip_stripped].
    unfold normalize_cell, strip_cell, replace_empty. simpl.
    case_bool_decide as E; [|done]. by apply strip_nil_blank in E.
Qed.

Lemma normalize_column_trimmed (c : column) (s : Py.str) :
  Text s ∈ cells (normalize_column c) → trimmed s.
Proof.
  destruct c as [l|l].
  - rewrite cells_normalize_column.
    intros (c & E & _)%list_elem_of_fmap. simpl in E.
    destruct (normalize_cell c) as [t|] eqn:Ec; [|done].
    injection E as ->. by eapply normalize_cell_trimmed.
  - simpl. by intros (x & ? & _)%list_elem_of_fmap.
Qed.

(** Two texts with the same stripped text are one key for step 2. *)
Lemma normalize_cell_stripped (s t u : Py.str) :
  stripped s u → stripped t u →
  normalize_cell (Some s) = normalize_cell (Some t).
Proof.
  intros Hs%stripped_unique Ht%stripped_unique.
  unfold normalize_cell, strip_cell. simpl. by rewrite <- Hs, <- Ht.
Qed.

Lemma cell_eqb_normalized (c : option Py.str) :
  cell_eqb (obj_cell (normalize_cell c)) (obj_cell (normalize_cell c)) = true.
Proof.
  destruct (normalize_cell c); simpl; [by apply bool_decide_eq_true|done].
Qed.

(** The second pass of step 1 over a column. *)
Lemma normalize_convert (k : list (option Py.str)) :
  normalize_column (convert k)
    = if all_null k then convert k else convert (normalize_cell <$> k).
Proof.
  destruct k as [|c k]; [done|]. unfold convert at 1.
  destruct (all_null (c :: k)) eqn:E; [|done].
  unfold convert. by rewrite E.
Qed.

Lemma convert_Some (f : option Py.str → Py.str) (l : list (option Py.str)) :
  convert ((λ c, Some (f c)) <$> l) = ObjCol ((λ c, Some (f c)) <$> l).
Proof. by destruct l. Qed.

Lemma normalize_column_twice (l : list (option Py.str)) :
  normalize_column (normalize_column (ObjCol l))
    = if all_null (normalize_cell <$> l) then normalize_column (ObjCol l)
      else ObjCol ((λ c, Some (default (utf8 "nan") (normalize_cell c)))
                     <$> l).
Proof.
  cbn [normalize_column]. rewrite normalize_convert.
  destruct (all_null (normalize_cell <$> l)); [done|].
  rewrite <- list_fmap_compose, <- convert_Some. f_equal.
  apply list_fmap_ext. intros _ x _. apply normalize_cell_twice.
Qed.

(** * The claims *)

(** ** Step 4: rows without province *)

(** C1, at a table whose first row has no province: the row is not removed,
    it is in the output with the text "nan" as its province. *)
Theorem null_province_row_survives :
  isna (ObjCol [None; Some (utf8 "Namur")]) = [true; false] ∧
  index_of (clean_immo_data plain null_province) = Some [0; 1]%nat ∧
  col_of "province" (clean_immo_data plain null_province)
    = Some (ObjCol [Some (utf8 "nan"); Some (utf8 "Namur")]).
Proof. vm_compute. done. Qed.

(** ** Step 5: the price per square metre *)

(** C2 as stated fails: a listing with a zero area is in the output with an
    infinite [price_per_m2]. *)
Lemma zero_area_gives_infinity :
  col_of "living_area" (clean_immo_data plain (priced 100000 0))
    = Some (NumCol [0%float]) ∧
  col_of "price_per_m2" (clean_immo_data plain (priced 100000 0))
    = Some (NumCol [infinity]) ∧
  F64.isnan infinity = false.
Proof. vm_compute. done. Qed.

(** C2 (as the code has it): whenever the pipeline reaches step 5 the step
    raises nothing; [price_per_m2] is null when [price] or [living_area] is
    null and when both are zero; a price other than zero over a zero area
    gives an infinity, not a null. *)
Theorem price_per_m2_null_cases (R : runtime)
    (df d : DataFrame) :
  steps_1_to_4 R df = Ok d →
  ∃ price area ppm,
    columns d !! "price" = Some (NumCol price) ∧
    columns d !! "living_area" = Some (NumCol area) ∧
    compute_price_per_m2 d = Ok (set_col "price_per_m2" (NumCol ppm) d) ∧
    ∀ i p a, price !! i = Some p → area !! i = Some a →
      ∃ r, ppm !! i = Some r ∧
        (F64.isnan p = true ∨ F64.isnan a = true → F64.isnan r = true) ∧
        (F64.iszero p = true → F64.iszero a = true → F64.isnan r = true) ∧
        (F64.iszero a = true → F64.isnan p = false → F64.iszero p = false →
         F64.isinf r = true ∧ F64.isnan r = false).
Proof.
  unfold steps_1_to_4. intros H.
  apply bind_Ok_inv in H as (d2 & _ & H).
  apply bind_Ok_inv in H as (d3 & H3 & H).
  apply bind_Ok_inv in H as (d4 & H4 & H5).
  destruct (numeric_before_metric _ _ _ _ _ H3 H4 H5) as (price & area & Hp & Ha).
  exists price, area, (Series.div price area).
  split_and!; [done|done|by apply compute_price_per_m2_Ok|].
  intros i p a Hip Hia. exists (p / a)%float. split_and!.
  - unfold Series.div. by rewrite lookup_zip_with, Hip, Hia.
  - intros H. apply div_isnan. tauto.
  - intros Hzp Hza. apply div_isnan. tauto.
  - intros Hza Hnp Hzp. pose proof (div_by_zero p a Hza Hnp Hzp) as Hinf.
    split; [done|]. by apply isinf_not_nan.
Qed.

Lemma price_per_m2_null_cases_witness :
  ∃ d,
    steps_1_to_4 plain (priced 100000 0) = Ok d ∧
    ∃ price area ppm,
      columns d !! "price" = Some (NumCol price) ∧
      columns d !! "living_area" = Some (NumCol area) ∧
      compute_price_per_m2 d = Ok (set_col "price_per_m2" (NumCol ppm) d) ∧
      ∀ i p a, price !! i = Some p → area !! i = Some a →
        ∃ r, ppm !! i = Some r ∧
          (F64.isnan p = true ∨ F64.isnan a = true → F64.isnan r = true) ∧
          (F64.iszero p = true → F64.iszero a = true → F64.isnan r = true) ∧
          (F64.iszero a = true → F64.isnan p = false → F64.iszero p = false →
           F64.isinf r = true ∧ F64.isnan r = false).
Proof.
  eexists. split; [vm_compute; reflexivity|].
  apply (price_per_m2_null_cases plain (priced 100000 0)).
  vm_compute. reflexivity.
Defined.

(** ** Steps 6 and 7: the outlier filter *)

(** The example of the specification: of the prices 100000, 105000, 110000
    and 1000000 the last one is outside the bounds. *)
Example remove_outliers_prices :
  iqr_bounds [100000; 105000; 110000; 1000000]%float
    = ((-239375)%float, 675625%float) ∧
  remove_outliers [100000; 105000; 110000; 1000000]%float
    = [100000; 105000; 110000; nan]%float.
Proof. vm_compute. done. Qed.

(** The fifth listing goes for its price, yet its area of 1000 counted in the
    quartiles of the areas: the area 30 of the fourth listing is within the
    bounds of the five areas and outside the bounds of the first four. *)
Example bounds_before_row_removal :
  index_of (clean_immo_data plain
              (five_listings [100; 100; 100; 100; 10000]%float
                             [10; 10; 10; 30; 1000]%float))
    = Some [0; 1; 2; 3]%nat ∧
  iqr_bounds [10; 10; 10; 30; 1000]%float = ((-20)%float, 60%float) ∧
  iqr_bounds [10; 10; 10; 30]%float = (2.5%float, 22.5%float).
Proof. vm_compute. done. Qed.




(** ** Step 2: duplicates *)

Section Deduplication.


End Deduplication.



(** The third of the five listings, a second A1, is gone. *)
Example listings_deduplicated :
  index_of (drop_duplicates "property_id" (strip_whitespace listings))
    = Some [0; 1; 3; 4]%nat ∧
  col_of "property_id"
      (drop_duplicates "property_id" (strip_whitespace listings))
    = Some (text ["A1"; "A2"; "A3"; "A4"]).
Proof. vm_compute. done. Qed.

(** C5 as stated fails: of two listings without identifier the second is
    dropped, in a text column as in a numeric one. *)
Lemma null_ids_deduplicated :
  isna (ObjCol [None; None; Some (utf8 "A3")]) = [true; true; false] ∧
  index_of (clean_immo_data plain
              (three_listings (ObjCol [None; None; Some (utf8 "A3")])))
    = Some [0; 2]%nat ∧
  isna (NumCol [nan; nan; 7]%float) = [true; true; false] ∧
  index_of (clean_immo_data plain
              (three_listings (NumCol [nan; nan; 7]%float)))
    = Some [0; 2]%nat.
Proof. vm_compute. done. Qed.

(** C5 (as the code has it): rows without identifier are equal to one another
    for the deduplication step, which runs on the table step 1 has
    normalized.  On a table whose row labels are all different the step
    raises nothing, and of the rows whose [property_id] is null in the input
    every one after the first is absent from the table it returns. *)
Theorem null_ids_are_duplicates (df : DataFrame) (c : column) :
  columns df !! "property_id" = Some c →
  NoDup (index df) →
  ∃ d, drop_duplicates "property_id" (strip_whitespace df) = Ok d ∧
    index d `sublist_of` index df ∧
    ∀ i j n, (i < j)%nat →
      cells c !! i = Some (Number nan) → cells c !! j = Some (Number nan) →
      index df !! j = Some n →
      n ∉ index d.
Proof.
  intros Hc Hnd.
  assert (columns (strip_whitespace df) !! "property_id"
            = Some (normalize_column c)) as Hc'.
  { simpl. by rewrite lookup_fmap, Hc. }
  eexists. split_and!.
  - unfold drop_duplicates. by rewrite (proj2 (get_col_Ok _ _ _) Hc').
  - apply select_sublist.
  - intros i j n Hij Hx Hy Hj. simpl.
    rewrite (select_NoDup_elem_of _ _ _ _ Hnd Hj), list_lookup_fmap.
    pose proof (cells_normalize_isna c i _ Hx eq_refl) as Hx'.
    pose proof (cells_normalize_isna c j _ Hy eq_refl) as Hy'.
    unfold duplicated.
    rewrite (duplicated_from_lookup _ _ _ _ Hy'). simpl.
    intros [= Hdup]. apply negb_true_iff in Hdup.
    apply not_true_iff_false in Hdup. apply Hdup.
    apply existsb_exists. eexists. split.
    + apply in_or_app. left. apply list_elem_of_In. rewrite elem_of_reverse.
      apply list_elem_of_lookup. exists i. rewrite lookup_take_lt by done.
      exact Hx'.
    + destruct c; [|done]. simpl. done.
Qed.

Lemma null_ids_are_duplicates_witness :
  ∃ d, drop_duplicates "property_id"
         (strip_whitespace
            (three_listings (ObjCol [None; None; Some (utf8 "A3")]))) = Ok d ∧
    index d `sublist_of`
      index (three_listings (ObjCol [None; None; Some (utf8 "A3")])) ∧
    ∀ i j n, (i < j)%nat →
      cells (ObjCol [None; None; Some (utf8 "A3")]) !! i = Some (Number nan) →
      cells (ObjCol [None; None; Some (utf8 "A3")]) !! j = Some (Number nan) →
      index (three_listings (ObjCol [None; None; Some (utf8 "A3")])) !! j
        = Some n →
      n ∉ index d.
Proof.
  apply (null_ids_are_duplicates
           (three_listings (ObjCol [None; None; Some (utf8 "A3")]))).
  - vm_compute. reflexivity.
  - apply (bool_decide_unpack _). vm_compute. reflexivity.
Defined.

(** ** Step 3: the postal code *)

(** C6 as stated fails: on the text "1000.0" the conversion to Int64 raises. *)
Lemma postal_code_text_raises :
  clean_immo_data plain (one_listing (text ["1000.0"]))
    = Raise (CastError "postal_code").
Proof. vm_compute. reflexivity. Qed.

(** C6 (as the code has it): a postal code held as the number 1000.0 becomes
    the text "1000".  When every postal code of the column is null or a whole
    number the conversion of step 3 raises nothing, and every postal code of
    the output is, under its row label, the text of the input's number.  On a
    text column that holds "1000.0" the conversion raises. *)
Theorem postal_code_number_to_text (R : runtime)
    (df : DataFrame) (l : list float) :
  columns df !! "postal_code" = Some (NumCol l) →
  forallb whole_or_null l = true →
  postal_text 1000 = Some (utf8 "1000") ∧
  (∀ d2 d3,
     drop_duplicates "property_id" (strip_whitespace df) = Ok d2 →
     fix_numeric_types R d2 = Ok d3 →
     is_ok (fix_postal_code R d3) = true) ∧
  (∀ out,
     clean_immo_data R df = Ok out →
     ∃ l', columns out !! "postal_code" = Some (ObjCol l') ∧
       zip (index out) l' `sublist_of` zip (index df) (postal_text <$> l)) ∧
  (∀ d (t : list (option Py.str)) i,
     columns d !! "postal_code" = Some (ObjCol t) →
     t !! i = Some (Some (utf8 "1000.0")) →
     is_ok (fix_postal_code R d) = false).
Proof.
  intros Hc Hl. split; [by vm_compute|].
  assert (∀ d2 d3,
    drop_duplicates "property_id" (strip_whitespace df) = Ok d2 →
    fix_numeric_types R d2 = Ok d3 →
    ∃ keep, columns d3 !! "postal_code" = Some (NumCol (select keep l)) ∧
            index d3 = select keep (index df)) as Hd3.
  { intros d2 d3 H2 H3. unfold drop_duplicates in H2. inv_bind H2.
    injection H2 as <-.
    apply (fix_numeric_types_other _ _ _ "postal_code") in H3 as [-> ->];
      [|compute_done].
    eexists. split; [|done].
    rewrite lookup_df_select. simpl. by rewrite lookup_fmap, Hc. }
  split_and!.
  - intros d2 d3 H2 H3. destruct (Hd3 _ _ H2 H3) as (keep & Hk & _).
    eapply fix_postal_code_number_ok; [exact Hk|]. by apply select_forallb.
  - intros out (d2 & d3 & d4 & d5 & H2 & H3 & H4 & H5 & H)%clean_immo_data_inv.
    destruct (Hd3 _ _ H2 H3) as (keep & Hk & Hi).
    apply (fix_postal_code_number _ _ _ _ Hk) in H4 as ->.
    apply metric_and_outliers_inv in H as (p & a & _ & _ & ->).
    unfold remove_without_province in H5. inv_bind H5. inv_bind H5.
    injection H5 as <-.
    eexists. split.
    + unfold after_outliers. rewrite lookup_df_select. simpl.
      do 3 (rewrite lookup_insert_ne by done).
      rewrite lookup_fmap. rewrite lookup_insert_ne by done.
      by rewrite lookup_insert_eq.
    + simpl. rewrite Hi, <- !select_zip_with, <- select_fmap.
      etrans; [apply select_sublist|]. etrans; [apply select_sublist|].
      rewrite <- select_zip_with. apply select_sublist.
  - intros d t i Hd Hi. unfold fix_postal_code. rewrite Hd.
    unfold astype_Int64_str, astype_Int64.
    pose proof (traverse_Raise (int64_of_obj R "postal_code") t i _ Hi eq_refl)
      as Ht.
    by destruct (traverse _ t).
Qed.

Lemma postal_code_number_to_text_witness :
  columns listings !! "postal_code"
    = Some (NumCol [1000; 1000; 1000; 9000; nan]%float) ∧
  forallb whole_or_null [1000; 1000; 1000; 9000; nan]%float = true ∧
  postal_text 1000 = Some (utf8 "1000") ∧
  (∀ d2 d3,
     drop_duplicates "property_id" (strip_whitespace listings) = Ok d2 →
     fix_numeric_types plain d2 = Ok d3 →
     is_ok (fix_postal_code plain d3) = true) ∧
  (∀ out,
     clean_immo_data plain listings = Ok out →
     ∃ l', columns out !! "postal_code" = Some (ObjCol l') ∧
       zip (index out) l'
         `sublist_of` zip (index listings)
                        (postal_text <$> [1000; 1000; 1000; 9000; nan]%float)) ∧
  (∀ d (t : list (option Py.str)) i,
     columns d !! "postal_code" = Some (ObjCol t) →
     t !! i = Some (Some (utf8 "1000.0")) →
     is_ok (fix_postal_code plain d) = false).
Proof.
  split; [vm_compute; reflexivity|]. split; [vm_compute; reflexivity|].
  apply (postal_code_number_to_text plain listings);
    vm_compute; reflexivity.
Defined.

(** The same listing, through the whole pipeline. *)
Example postal_code_number_output :
  col_of "postal_code"
    (clean_immo_data plain (one_listing (NumCol [1000%float])))
    = Some (ObjCol [Some (utf8 "1000")]).
Proof. vm_compute. reflexivity. Qed.

(** ** The output table *)

(** C7 as stated fails: a listing with price zero and area zero is in the
    output with a null [price_per_m2]. *)
Lemma zero_over_zero_survives :
  col_of "price" (clean_immo_data plain (priced 0 0))
    = Some (NumCol [0%float]) ∧
  col_of "living_area" (clean_immo_data plain (priced 0 0))
    = Some (NumCol [0%float]) ∧
  col_of "price_per_m2" (clean_immo_data plain (priced 0 0))
    = Some (NumCol [nan]) ∧
  F64.isnan nan = true.
Proof. vm_compute. done. Qed.

(** C7 (as the code has it): in every output row [price] and [living_area]
    are not null and [price_per_m2] is their quotient; the quotient is null
    only where both are zero or both are infinite. *)
Theorem price_per_m2_output (R : runtime)
    (df out : DataFrame) :
  clean_immo_data R df = Ok out →
  ∃ price area,
    columns out !! "price" = Some (NumCol price) ∧
    columns out !! "living_area" = Some (NumCol area) ∧
    columns out !! "price_per_m2" = Some (NumCol (Series.div price area)) ∧
    length price = length area ∧
    ∀ i p a, price !! i = Some p → area !! i = Some a →
      F64.isnan p = false ∧ F64.isnan a = false ∧
      Series.div price area !! i = Some (p / a)%float ∧
      (F64.isnan (p / a) = true ↔
         F64.iszero p = true ∧ F64.iszero a = true ∨
         F64.isinf p = true ∧ F64.isinf a = true).
Proof.
  intros (d2 & d3 & d4 & d5 & _ & _ & _ & _ & H)%clean_immo_data_inv.
  apply metric_and_outliers_inv in H as (p5 & a5 & Hp & Ha & ->).
  set (m := zip_with andb (inliers p5) (inliers a5)).
  assert (Forall (λ p, F64.isnan p = false) (select m p5)) as Hnp.
  { apply select_Forall. intros i x [Hi _]%zip_with_andb_true Hx.
    destruct (inliers_lookup _ _ Hi) as (v & ? & _ & ?). congruence. }
  assert (Forall (λ p, F64.isnan p = false) (select m a5)) as Hna.
  { apply select_Forall. intros i x [_ Hi]%zip_with_andb_true Hx.
    destruct (inliers_lookup _ _ Hi) as (v & ? & _ & ?). congruence. }
  exists (select m p5), (select m a5). split_and!.
  - unfold after_outliers. rewrite lookup_df_select. simpl.
    rewrite lookup_insert_ne by done. rewrite lookup_insert_eq. simpl.
    f_equal. f_equal. apply select_inliers_l.
  - unfold after_outliers. rewrite lookup_df_select. simpl.
    rewrite lookup_insert_eq. simpl.
    f_equal. f_equal. apply select_inliers_r.
  - unfold after_outliers. rewrite lookup_df_select. simpl.
    do 2 (rewrite lookup_insert_ne by done). rewrite lookup_insert_eq. simpl.
    f_equal. f_equal. apply select_zip_with.
  - apply select_length_eq; unfold m, inliers;
      rewrite length_zip_with, !length_fmap; lia.
  - intros i p a Hip Hia.
    rewrite Forall_lookup in Hnp, Hna.
    pose proof (Hnp _ _ Hip) as Hp'. pose proof (Hna _ _ Hia) as Ha'.
    split_and!; [done..| |].
    + unfold Series.div. by rewrite lookup_zip_with, Hip, Hia.
    + rewrite div_isnan, Hp', Ha'. split; [|tauto].
      intros [?|[?|?]]; [done|done|tauto].
Qed.

Lemma price_per_m2_output_witness :
  ∃ out, clean_immo_data plain listings = Ok out ∧
  ∃ price area,
    columns out !! "price" = Some (NumCol price) ∧
    columns out !! "living_area" = Some (NumCol area) ∧
    columns out !! "price_per_m2" = Some (NumCol (Series.div price area)) ∧
    length price = length area ∧
    ∀ i p a, price !! i = Some p → area !! i = Some a →
      F64.isnan p = false ∧ F64.isnan a = false ∧
      Series.div price area !! i = Some (p / a)%float ∧
      (F64.isnan (p / a) = true ↔
         F64.iszero p = true ∧ F64.iszero a = true ∨
         F64.isinf p = true ∧ F64.isinf a = true).
Proof.
  eexists. split; [vm_compute; reflexivity|].
  apply (price_per_m2_output plain listings). vm_compute. reflexivity.
Defined.



(** ** Step 1: text columns *)

(** C9 as stated fails: after step 1 the blank cell of a text column is a
    true null, and a text column of blank cells only has become a float64
    column of nulls. *)
Lemma blank_text_becomes_null :
  columns notes !! "remarks"
    = Some (ObjCol [Some (utf8 " garden "); Some [32; 160]; None]) ∧
  columns (strip_whitespace notes) !! "remarks"
    = Some (ObjCol [Some (utf8 "garden"); None; Some (utf8 "nan")]) ∧
  isna (ObjCol [Some (utf8 "garden"); None; Some (utf8 "nan")])
    = [false; true; false] ∧
  columns notes !! "agent" = Some (text [""; " "; "  "]) ∧
  columns (strip_whitespace notes) !! "agent" = Some (NumCol [nan; nan; nan]).
Proof. vm_compute. done. Qed.

(** C9 (as the code has it): step 1 turns every null of a text column into
    the text "nan"; a cell whose text is empty or whitespace only becomes a
    true null, and no other cell is null afterwards; every other text is left
    without the whitespace at its two ends.  The column stays a text column
    unless it has cells and all of them are blank text: then it comes out as
    a float64 column of nulls. *)
Theorem strip_whitespace_nulls (df : DataFrame) (name : string)
    (l : list (option Py.str)) :
  columns df !! name = Some (ObjCol l) →
  ∃ c', columns (strip_whitespace df) !! name = Some c' ∧
    length (cells c') = length l ∧
    (∀ i c, l !! i = Some c →
       ∃ y, cells c' !! i = Some y ∧
         (c = None → y = Text (utf8 "nan")) ∧
         (cell_isna y = true ↔ ∃ s, c = Some s ∧ blank s) ∧
         (∀ s, c = Some s → ¬ blank s → ∃ t, y = Text t ∧ stripped s t)) ∧
    ((∃ f, c' = NumCol f) ↔
       l ≠ [] ∧ Forall (λ c, ∃ s, c = Some s ∧ blank s) l).
Proof.
  intros Hl. exists (normalize_column (ObjCol l)). split_and!.
  - simpl. by rewrite lookup_fmap, Hl.
  - by rewrite cells_normalize_column, length_fmap.
  - intros i c Hc. rewrite cells_normalize_column, list_lookup_fmap, Hc.
    simpl. eexists. split; [done|].
    destruct (normalize_cell_cases c) as (Hnull & Hblank & Htext).
    split_and!.
    + intros H. by rewrite (Hnull H).
    + rewrite <- Hblank. by destruct (normalize_cell c).
    + intros s Hs Hb. destruct (Htext s Hs Hb) as (t & -> & Ht). eauto.
  - simpl. rewrite convert_float, Forall_fmap.
    split; intros [Hne H]; (split; [by destruct l|]);
      eapply Forall_impl; try exact H; simpl; intros c;
      by rewrite (proj1 (proj2 (normalize_cell_cases c))).
Qed.

Lemma strip_whitespace_nulls_witness :
  ∃ c', columns (strip_whitespace notes) !! "remarks" = Some c' ∧
    length (cells c')
      = length [Some (utf8 " garden "); Some [32; 160]; @None Py.str] ∧
    (∀ i c, [Some (utf8 " garden "); Some [32; 160]; None] !! i = Some c →
       ∃ y, cells c' !! i = Some y ∧
         (c = None → y = Text (utf8 "nan")) ∧
         (cell_isna y = true ↔ ∃ s, c = Some s ∧ blank s) ∧
         (∀ s, c = Some s → ¬ blank s → ∃ t, y = Text t ∧ stripped s t)) ∧
    ((∃ f, c' = NumCol f) ↔
       [Some (utf8 " garden "); Some [32; 160]; @None Py.str] ≠ [] ∧
       Forall (λ c, ∃ s, c = Some s ∧ blank s)
         [Some (utf8 " garden "); Some [32; 160]; @None Py.str]).
Proof.
  apply (strip_whitespace_nulls notes "remarks"). vm_compute. reflexivity.
Defined.


(** ** Row order *)

(** C10: the output's row labels are a subsequence of the input's, and so
    are, together with their labels, the cells of every column the pipeline
    does not assign (trimmed by step 1): rows that survive keep their
    relative order. *)
Theorem row_order_preserved (R : runtime)
    (df out : DataFrame) :
  clean_immo_data R df = Ok out →
  index out `sublist_of` index df ∧
  ∀ name c,
    name ∉ ["price"; "living_area"; "number_rooms"; "facades"; "postal_code";
            "province"; "price_per_m2"] →
    columns df !! name = Some c →
    ∃ c', columns out !! name = Some c' ∧
      zip (index out) (cells c')
        `sublist_of` zip (index df) (cells (normalize_column c)).
Proof.
  intros H. unfold clean_immo_data in H. inv_bind H.
  unfold drop_duplicates in E. inv_bind E. injection E as <-.
  split.
  - apply (after_dedup_shrinks R "property_id") in H as [H _];
      [|compute_done].
    etrans; [exact H|]. apply select_sublist.
  - intros name c Hn Hc.
    destruct (after_dedup_shrinks R name _ _ Hn H) as [_ Hsh].
    destruct (shrinks_select name (negb <$> duplicated df1)
                (strip_whitespace df)) as [_ Hsel].
    destruct (Hsel (normalize_column c)) as (c1 & Hc1 & _ & Hl1).
    { simpl. by rewrite lookup_fmap, Hc. }
    destruct (Hsh c1 Hc1) as (c' & Hc' & _ & Hl').
    exists c'. split; [done|]. by etrans.
Qed.

Lemma row_order_preserved_witness :
  ∃ out, clean_immo_data plain listings = Ok out ∧
    index out `sublist_of` index listings ∧
    ∀ name c,
      name ∉ ["price"; "living_area"; "number_rooms"; "facades";
              "postal_code"; "province"; "price_per_m2"] →
      columns listings !! name = Some c →
      ∃ c', columns out !! name = Some c' ∧
        zip (index out) (cells c')
          `sublist_of` zip (index listings) (cells (normalize_column c)).
Proof.
  eexists. split; [vm_compute; reflexivity|].
  apply (row_order_preserved plain listings). vm_compute. reflexivity.
Defined.

(** The listings A1, A2 and A3 are left, in this order, under their labels. *)
Example listings_output :
  index_of (clean_immo_data plain listings) = Some [0; 1; 3]%nat ∧
  col_of "property_id" (clean_immo_data plain listings)
    = Some (text ["A1"; "A2"; "A3"]) ∧
  col_of "price_per_m2" (clean_immo_data plain listings)
    = Some (NumCol [1000; 1050; 1000]%float).
Proof. vm_compute. done. Qed.



(** * Further properties of [clean_immo_data] *)

(** ** Success and failure *)




(** X3: the function raises nothing else than a [KeyError] for one of the six
    required columns, which the input then lacks, or the error of a postal
    code that cannot be cast to Int64.  In particular the arithmetic of
    steps 5 and 6 never meets a text column. *)
Theorem clean_immo_data_errors (R : runtime)
    (df : DataFrame) (e : error) :
  clean_immo_data R df = Raise e →
  (∃ name, name ∈ required_columns ∧ columns df !! name = None ∧
           e = KeyError name) ∨
  (is_Some (columns df !! "postal_code") ∧ e = CastError "postal_code").
Proof.
  intros H%clean_immo_data_Raise.
  pose proof (steps_1_to_3_cases R df) as Hc.
  destruct (first_missing df) as [name|] eqn:Hf.
  - left. exists name. unfold first_missing in Hf.
    apply find_some in Hf as [Hin Hnone].
    apply bool_decide_eq_true in Hnone.
    split; [|split; [done|congruence]].
    apply list_elem_of_In in Hin. unfold numeric_columns in Hin.
    unfold required_columns.
    rewrite !elem_of_cons, elem_of_nil in Hin. rewrite !elem_of_cons.
    clear -Hin. tauto.
  - destruct Hc as (pid & d3 & Hpid & Heq & Hcols). rewrite Heq in H.
    unfold fix_postal_code in H.
    rewrite (Hcols "postal_code") in H by compute_done.
    destruct (columns df !! "postal_code") as [c|] eqn:Hpc; simpl in H.
    + unfold astype_Int64_str in H.
      destruct (astype_Int64 R "postal_code" _) as [zs|e'] eqn:Hz; simpl in H.
      * left. exists "province". unfold remove_without_province, get_col in H.
        simpl in H. rewrite lookup_insert_ne in H by done.
        rewrite (Hcols "province") in H by compute_done.
        destruct (columns df !! "province") as [c'|] eqn:Hp; simpl in H.
        -- by rewrite lookup_insert_eq in H.
        -- split; [compute_done|]. split; congruence.
      * right. split; [eauto|]. injection H as <-.
        by eapply astype_Int64_error.
    + left. exists "province". unfold remove_without_province, get_col in H.
      rewrite (Hcols "province") in H by compute_done.
      destruct (columns df !! "province") as [c'|] eqn:Hp; simpl in H.
      * by rewrite lookup_insert_eq in H.
      * split; [compute_done|]. split; congruence.
Qed.

Lemma clean_immo_data_errors_witness :
  clean_immo_data plain (one_listing (text ["1000.0"]))
    = Raise (CastError "postal_code") ∧
  ((∃ name, name ∈ required_columns ∧
            columns (one_listing (text ["1000.0"])) !! name = None ∧
            CastError "postal_code" = KeyError name) ∨
   (is_Some (columns (one_listing (text ["1000.0"])) !! "postal_code") ∧
    CastError "postal_code" = CastError "postal_code")).
Proof.
  split; [vm_compute; reflexivity|].
  apply (clean_immo_data_errors plain (one_listing (text ["1000.0"]))).
  vm_compute. reflexivity.
Defined.

(** ** The output in terms of the input *)





(** X6: which rows survive depends on four columns only: two tables with the
    same row labels and the same [property_id], [province], [price] and
    [living_area] keep the same rows, whatever their other columns hold. *)
Theorem survival_depends_on_four_columns (R : runtime)
    (df df' out out' : DataFrame) :
  index df = index df' →
  (∀ name, name ∈ ["property_id"; "province"; "price"; "living_area"] →
           columns df !! name = columns df' !! name) →
  clean_immo_data R df = Ok out →
  clean_immo_data R df' = Ok out' →
  index out = index out'.
Proof.
  intros Hi Hc H H'.
  destruct (clean_immo_data_required _ _ _ H)
    as (pid & prov & price & area & Hpid & Hprov & Hprice & Harea).
  destruct (clean_immo_data_shape _ _ _ _ _ _ _ Hpid Hprov Hprice Harea H)
    as [-> _].
  rewrite Hc in Hpid, Hprov, Hprice, Harea by compute_done.
  destruct (clean_immo_data_shape _ _ _ _ _ _ _ Hpid Hprov Hprice Harea H')
    as [-> _].
  by rewrite Hi.
Qed.

Lemma survival_depends_on_four_columns_witness :
  ∃ out out',
    clean_immo_data plain (one_listing (NumCol [1000]%float)) = Ok out ∧
    clean_immo_data plain (one_listing (text ["4000"])) = Ok out' ∧
    index out = index out'.
Proof.
  eexists _, _. split; [vm_compute; reflexivity|].
  split; [vm_compute; reflexivity|].
  apply (survival_depends_on_four_columns plain
           (one_listing (NumCol [1000]%float)) (one_listing (text ["4000"]))).
  - reflexivity.
  - intros name Hn. rewrite !elem_of_cons, elem_of_nil in Hn.
    destruct Hn as [->|[->|[->|[->|[]]]]]; reflexivity.
  - vm_compute. reflexivity.
  - vm_compute. reflexivity.
Defined.

(** X7: the output has the columns of the input and [price_per_m2], no other
    and none less: no step drops or renames a column. *)
Theorem output_column_names (R : runtime)
    (df out : DataFrame) :
  clean_immo_data R df = Ok out →
  dom (columns out) = dom (columns df) ∪ {["price_per_m2"]}.
Proof.
  intros (d2 & d3 & d4 & d5 & H2 & H3 & H4 & H5 & H)%clean_immo_data_inv.
  apply metric_and_outliers_inv in H as (p & a & Hp & Ha & ->).
  apply drop_duplicates_inv in H2 as (c & _ & ->).
  apply remove_without_province_inv in H5 as (prov & Hprov & ->).
  assert (dom (columns d3) = dom (columns df)) as E3.
  { rewrite fix_numeric_types_unfold in H3.
    apply bind_Ok_inv in H3 as (e1 & (c1 & Hc1 & ->)%coerce_numeric_inv & H3).
    apply bind_Ok_inv in H3 as (e2 & (c2 & Hc2 & ->)%coerce_numeric_inv & H3).
    apply bind_Ok_inv in H3 as (e3 & (c3 & Hc3 & ->)%coerce_numeric_inv & H3).
    apply coerce_numeric_inv in H3 as (c4 & Hc4 & ->).
    rewrite !dom_set_col_present by eauto.
    rewrite dom_df_select. simpl. apply dom_fmap_L. }
  assert (dom (columns d4) = dom (columns df)) as E4.
  { unfold fix_postal_code in H4.
    destruct (columns d3 !! "postal_code") as [pc|] eqn:Hpc.
    - apply bind_Ok_inv in H4 as (c' & _ & H4). injection H4 as <-.
      rewrite dom_set_col_present by eauto. done.
    - by injection H4 as <-. }
  unfold after_outliers. rewrite dom_df_select. simpl.
  rewrite !dom_insert_L, dom_fmap_L, dom_insert_L, E4.
  assert ("price" ∈ dom (columns df) ∧ "living_area" ∈ dom (columns df)
          ∧ "province" ∈ dom (columns df)) as (? & ? & ?).
  { rewrite <- E4. split_and!; apply elem_of_dom.
    - rewrite lookup_df_select in Hp. simpl in Hp.
      rewrite lookup_insert_ne in Hp by done.
      by destruct (columns d4 !! "price").
    - rewrite lookup_df_select in Ha. simpl in Ha.
      rewrite lookup_insert_ne in Ha by done.
      by destruct (columns d4 !! "living_area").
    - eauto. }
  generalize dependent (dom (columns df)). intros D _ _ HD1 HD2 HD3.
  apply set_eq. intros x.
  rewrite !elem_of_union, !elem_of_singleton.
  split.
  - intros [->|[->|[->|[->|?]]]]; auto.
  - intros [?| ->]; auto 10.
Qed.

Lemma output_column_names_witness :
  ∃ out, clean_immo_data plain listings = Ok out ∧
    dom (columns out) = dom (columns listings) ∪ {["price_per_m2"]}.
Proof.
  eexists. split; [vm_compute; reflexivity|].
  apply (output_column_names plain listings). vm_compute. reflexivity.
Defined.

(** X8: the function keeps the table rectangular: if every column of the
    input has one cell per row, so has every column of the output, the new
    [price_per_m2] included. *)
Theorem output_rectangular (R : runtime)
    (df out : DataFrame) :
  rectangular df → clean_immo_data R df = Ok out → rectangular out.
Proof.
  intros Hdf H. rewrite clean_immo_data_split in H.
  apply bind_Ok_inv in H as (d & Hd & H).
  apply metric_and_outliers_inv in H as (price & area & Hp & Ha & ->).
  apply rectangular_after_outliers; [|done..].
  by eapply rectangular_steps_1_to_4.
Qed.

Lemma output_rectangular_witness :
  ∃ out, clean_immo_data plain listings = Ok out ∧ rectangular out.
Proof.
  eexists. split; [vm_compute; reflexivity|].
  apply (output_rectangular plain listings).
  - apply (bool_decide_unpack _). vm_compute. reflexivity.
  - vm_compute. reflexivity.
Defined.

(** X9: a table without rows that has the required columns is cleaned without
    error, quantiles of empty columns included, and the output has no rows
    either. *)
Theorem empty_table_cleaned (R : runtime) (df : DataFrame) :
  (∀ name, name ∈ required_columns → is_Some (columns df !! name)) →
  index df = [] → rectangular df →
  ∃ out, clean_immo_data R df = Ok out ∧ index out = [] ∧
         ∀ name c, columns out !! name = Some c → cells c = [].
Proof.
  intros Hreq Hidx Hdf.
  assert (is_ok (steps_1_to_4 R df) = true) as Hok.
  { apply steps_1_to_4_ok_iff. split; [done|].
    intros pid c Hpid Hc.
    assert (cells pid = []) as Ep.
    { apply nil_length_inv. rewrite (Hdf _ _ Hpid). by rewrite Hidx. }
    assert (cells c = []) as Ec.
    { apply nil_length_inv. rewrite (Hdf _ _ Hc). by rewrite Hidx. }
    destruct c as [[|? ?]|[|? ?]]; try done;
      destruct pid as [[|? ?]|[|? ?]]; done. }
  apply is_ok_Ok in Hok as [d Hd].
  destruct (clean_immo_data_returns _ _ _ Hd) as (p & a & Hp & Ha & Hout).
  eexists. split; [exact Hout|].
  assert (rectangular (after_outliers d p a)) as Hrect.
  { apply rectangular_after_outliers; [|done..].
    by eapply rectangular_steps_1_to_4. }
  assert (index (after_outliers d p a) = []) as Ei.
  { destruct (clean_immo_data_required _ _ _ Hout)
      as (pid & prov & price & area & H1 & H2 & H3 & H4).
    destruct (clean_immo_data_shape R df _ _ _ _ _ H1 H2 H3 H4 Hout)
      as [-> _].
    rewrite Hidx. by destruct (survivors _ _ _ _ _). }
  split; [done|]. intros name c Hc. apply nil_length_inv.
  rewrite (Hrect _ _ Hc). by rewrite Ei.
Qed.

Lemma empty_table_cleaned_witness :
  ∃ out, clean_immo_data plain no_listings = Ok out ∧ index out = [] ∧
         ∀ name c, columns out !! name = Some c → cells c = [].
Proof.
  apply (empty_table_cleaned plain no_listings).
  - apply Forall_forall. apply (bool_decide_unpack _). vm_compute. reflexivity.
  - reflexivity.
  - apply (bool_decide_unpack _). vm_compute. reflexivity.
Defined.


(** ** Step 1 *)

(** X10: text in the output is trimmed: in every column other than the four
    numeric ones, the postal code and the price per square metre, a text cell
    of the output is not empty and has no whitespace at either end. *)
Theorem output_text_trimmed (R : runtime)
    (df out : DataFrame) (name : string) (l : list (option Py.str)) :
  clean_immo_data R df = Ok out →
  name ∉ ["price"; "living_area"; "number_rooms"; "facades"; "postal_code";
          "price_per_m2"] →
  columns out !! name = Some (ObjCol l) →
  ∀ i s, l !! i = Some (Some s) → trimmed s.
Proof.
  intros H Hn Hl i s Hs.
  destruct (clean_immo_data_required _ _ _ H)
    as (pid & prov & price & area & Hpid & Hprov & Hprice & Harea).
  destruct (clean_immo_data_shape _ _ _ _ _ _ _ Hpid Hprov Hprice Harea H)
    as (_ & Hp & _ & Hc).
  assert (Text s ∈ cells (ObjCol l)) as Hin.
  { apply list_elem_of_lookup. exists i. simpl.
    by rewrite list_lookup_fmap, Hs. }
  destruct (decide (name = "province")) as [->|Hprovince].
  - rewrite Hp in Hl. injection Hl as Hl. rewrite <- Hl in Hin.
    rewrite cells_col_select in Hin. apply elem_of_select in Hin.
    rewrite cells_downcast, cells_col_select in Hin.
    apply elem_of_select in Hin. by eapply normalize_column_trimmed.
  - rewrite !not_elem_of_cons in Hn.
    destruct Hn as (N1 & N2 & N3 & N4 & N5 & N6 & _).
    rewrite Hc in Hl; [|unfold numeric_columns; rewrite !not_elem_of_cons;
                         split_and!; [assumption..|apply not_elem_of_nil]
                       |assumption..].
    destruct (columns df !! name) as [c|]; simpl in Hl; [|done].
    injection Hl as Hl. rewrite <- Hl in Hin.
    rewrite cells_col_select in Hin. apply elem_of_select in Hin.
    by eapply normalize_column_trimmed.
Qed.

Lemma output_text_trimmed_witness :
  ∃ out l, clean_immo_data plain listings = Ok out ∧
    columns out !! "province" = Some (ObjCol l) ∧
    ∀ i s, l !! i = Some (Some s) → trimmed s.
Proof.
  eexists _, _. split; [vm_compute; reflexivity|].
  split; [vm_compute; reflexivity|].
  eapply (output_text_trimmed plain listings _ "province").
  - vm_compute. reflexivity.
  - compute_done.
  - vm_compute. reflexivity.
Defined.

(** X11: step 2 compares the identifiers after step 1 has trimmed them.  On a
    table whose row labels are all different, of two rows whose [property_id]
    texts are the same text between surrounding whitespace, the later one is
    not in the table step 2 returns. *)
Theorem ids_equal_after_trimming (df : DataFrame) (l : list (option Py.str)) :
  columns df !! "property_id" = Some (ObjCol l) →
  NoDup (index df) →
  ∃ d, drop_duplicates "property_id" (strip_whitespace df) = Ok d ∧
    index d `sublist_of` index df ∧
    ∀ i j s t u n, (i < j)%nat →
      l !! i = Some (Some s) → l !! j = Some (Some t) →
      stripped s u → stripped t u →
      index df !! j = Some n →
      n ∉ index d.
Proof.
  intros Hc Hnd.
  assert (columns (strip_whitespace df) !! "property_id"
            = Some (normalize_column (ObjCol l))) as Hc'.
  { simpl. by rewrite lookup_fmap, Hc. }
  eexists. split_and!.
  - unfold drop_duplicates. by rewrite (proj2 (get_col_Ok _ _ _) Hc').
  - apply select_sublist.
  - intros i j s t u n Hij Hs Ht Hsu Htu Hj.
    cbn [index df_select strip_whitespace].
    rewrite (select_NoDup_elem_of _ _ _ _ Hnd Hj), list_lookup_fmap.
    assert (∀ k v, l !! k = Some (Some v) →
      cells (normalize_column (ObjCol l)) !! k
        = Some (obj_cell (normalize_cell (Some v)))) as Hcell.
    { intros k v Hv. by rewrite cells_normalize_column, list_lookup_fmap, Hv. }
    unfold duplicated.
    rewrite (duplicated_from_lookup _ _ _ _ (Hcell _ _ Ht)).
    cbn [fmap option_fmap option_map].
    intros [= Hdup]. apply negb_true_iff in Hdup.
    apply not_true_iff_false in Hdup. apply Hdup.
    apply existsb_exists.
    exists (obj_cell (normalize_cell (Some s))). split.
    + apply in_or_app. left. apply list_elem_of_In. rewrite elem_of_reverse.
      apply list_elem_of_lookup. exists i. rewrite lookup_take_lt by done.
      by apply Hcell.
    + rewrite (normalize_cell_stripped s t u Hsu Htu).
      apply cell_eqb_normalized.
Qed.

Lemma ids_equal_after_trimming_witness :
  ∃ d, drop_duplicates "property_id" (strip_whitespace listings) = Ok d ∧
    index d `sublist_of` index listings ∧
    ∀ i j s t u n, (i < j)%nat →
      (Some ∘ utf8 <$> ["A1"; "A2"; " A1 "; "A3"; "A4"]) !! i
        = Some (Some s) →
      (Some ∘ utf8 <$> ["A1"; "A2"; " A1 "; "A3"; "A4"]) !! j
        = Some (Some t) →
      stripped s u → stripped t u →
      index listings !! j = Some n →
      n ∉ index d.
Proof.
  apply (ids_equal_after_trimming listings
           (Some ∘ utf8 <$> ["A1"; "A2"; " A1 "; "A3"; "A4"])).
  - vm_compute. reflexivity.
  - apply (bool_decide_unpack _). vm_compute. reflexivity.
Defined.

(** X12: step 1 is not idempotent.  A text column that has cells, all of them
    blank text, leaves the first pass as a float64 column of nulls, which a
    second pass does not touch.  Any other text column leaves the second pass
    as a text column without nulls: the null and the blank cells of the input
    are the text "nan" ([astype(str)] renders the NaN the first pass wrote for
    a blank cell), every other text is stripped as by the first pass. *)
Theorem strip_whitespace_twice (df : DataFrame) (name : string)
    (l : list (option Py.str)) :
  columns df !! name = Some (ObjCol l) →
  (l ≠ [] → Forall (λ c, ∃ s, c = Some s ∧ blank s) l →
   columns (strip_whitespace df) !! name = Some (NumCol ((λ _, nan) <$> l)) ∧
   columns (strip_whitespace (strip_whitespace df)) !! name
     = Some (NumCol ((λ _, nan) <$> l))) ∧
  (¬ (l ≠ [] ∧ Forall (λ c, ∃ s, c = Some s ∧ blank s) l) →
   ∃ l', columns (strip_whitespace (strip_whitespace df)) !! name
           = Some (ObjCol l') ∧
     length l' = length l ∧
     ∀ i c, l !! i = Some c →
       ∃ t, l' !! i = Some (Some t) ∧
         (c = None → t = utf8 "nan") ∧
         (∀ s, c = Some s → blank s → t = utf8 "nan") ∧
         (∀ s, c = Some s → ¬ blank s → stripped s t)).
Proof.
  intros Hl.
  assert (columns (strip_whitespace (strip_whitespace df)) !! name
            = Some (normalize_column (normalize_column (ObjCol l)))) as H2.
  { simpl. by rewrite !lookup_fmap, Hl. }
  assert (columns (strip_whitespace df) !! name
            = Some (normalize_column (ObjCol l))) as H1.
  { simpl. by rewrite !lookup_fmap, Hl. }
  assert (all_null (normalize_cell <$> l) = true
          ↔ Forall (λ c, ∃ s, c = Some s ∧ blank s) l) as Hall.
  { rewrite all_null_Forall, Forall_fmap. apply Forall_iff. intros c. simpl.
    apply (normalize_cell_cases c). }
  rewrite H1, H2, normalize_column_twice. split.
  - intros Hne Hb. rewrite (proj2 Hall Hb).
    assert (normalize_column (ObjCol l) = NumCol ((λ _, nan) <$> l)) as ->;
      [|done].
    simpl. unfold convert. destruct l as [|c l]; [done|].
    cbn [fmap list_fmap]. cbn [fmap list_fmap] in Hall.
    rewrite (proj2 Hall Hb). simpl. by rewrite <- list_fmap_compose.
  - intros Hno. destruct (all_null (normalize_cell <$> l)) eqn:E.
    { destruct l as [|c l]; [|destruct Hno; split; [done|by apply Hall]].
      exists []. by split_and!. }
    eexists. split_and!; [done|by rewrite length_fmap|].
    intros i c Hc. rewrite list_lookup_fmap, Hc. simpl.
    eexists. split; [done|].
    destruct (normalize_cell_cases c) as (Hnull & Hblank & Htext).
    split_and!.
    + intros H. by rewrite (Hnull H).
    + intros s Hs Hb. by rewrite (proj2 Hblank (ex_intro _ s (conj Hs Hb))).
    + intros s Hs Hb. by destruct (Htext s Hs Hb) as (t & -> & Ht).
Qed.

Lemma strip_whitespace_twice_witness :
  ([Some (utf8 " garden "); Some [32; 160]; @None Py.str] ≠ [] →
   Forall (λ c, ∃ s, c = Some s ∧ blank s)
     [Some (utf8 " garden "); Some [32; 160]; @None Py.str] →
   columns (strip_whitespace notes) !! "remarks"
     = Some (NumCol ((λ _, nan)
                       <$> [Some (utf8 " garden "); Some [32; 160]; None])) ∧
   columns (strip_whitespace (strip_whitespace notes)) !! "remarks"
     = Some (NumCol ((λ _, nan)
                       <$> [Some (utf8 " garden "); Some [32; 160]; None]))) ∧
  (¬ ([Some (utf8 " garden "); Some [32; 160]; @None Py.str] ≠ [] ∧
      Forall (λ c, ∃ s, c = Some s ∧ blank s)
        [Some (utf8 " garden "); Some [32; 160]; @None Py.str]) →
   ∃ l', columns (strip_whitespace (strip_whitespace notes)) !! "remarks"
           = Some (ObjCol l') ∧
     length l'
       = length [Some (utf8 " garden "); Some [32; 160]; @None Py.str] ∧
     ∀ i c, [Some (utf8 " garden "); Some [32; 160]; None] !! i = Some c →
       ∃ t, l' !! i = Some (Some t) ∧
         (c = None → t = utf8 "nan") ∧
         (∀ s, c = Some s → blank s → t = utf8 "nan") ∧
         (∀ s, c = Some s → ¬ blank s → stripped s t)).
Proof.
  apply (strip_whitespace_twice notes "remarks"). vm_compute. reflexivity.
Defined.

(** The two passes on the example table: the blank remark is the text "nan"
    after the second pass; the column of blank agents is float64 after the
    first pass and stays as it is. *)
Example notes_twice :
  columns (strip_whitespace (strip_whitespace notes)) !! "remarks"
    = Some (ObjCol [Some (utf8 "garden"); Some (utf8 "nan");
                    Some (utf8 "nan")]) ∧
  columns (strip_whitespace (strip_whitespace notes)) !! "agent"
    = Some (NumCol [nan; nan; nan]).
Proof. vm_compute. done. Qed.

(** ** Step 4 *)

(** X13: the replacement of empty strings in step 4 changes no cell: after
    steps 1 to 3 the province column has no empty string left, step 1 having
    replaced them all.  What the replacement changes is the dtype of a text
    column that is left with nulls only, and at least one: it becomes
    float64. *)
Theorem province_replace_redundant (R : runtime)
    (df d : DataFrame) (c : column) :
  steps_1_to_3 R df = Ok d →
  columns d !! "province" = Some c →
  cells (col_replace_empty c) = cells c ∧
  Forall (λ x, x ≠ Text []) (cells c) ∧
  col_replace_empty c = downcast c.
Proof.
  intros H Hc. unfold steps_1_to_3 in H.
  apply bind_Ok_inv in H as (d2 & (pid & Hpid & ->)%drop_duplicates_inv & H).
  apply bind_Ok_inv in H as (d3 & H3 & H4).
  destruct (fix_postal_code_other _ _ _ "province" ltac:(done) H4) as [E _].
  rewrite E in Hc.
  destruct (fix_numeric_types_inv _ _ _ H3) as [_ Hcols].
  destruct (Hcols "province") as [_ E3]. rewrite E3 in Hc by compute_done.
  rewrite lookup_df_select in Hc. simpl in Hc. rewrite lookup_fmap in Hc.
  destruct (columns df !! "province") as [c0|]; [|done].
  injection Hc as <-.
  pose proof (downcast_replace_empty (negb <$> duplicated pid) c0) as Hd.
  assert (cells (col_replace_empty
                   (col_select (negb <$> duplicated pid) (normalize_column c0)))
          = cells (col_select (negb <$> duplicated pid) (normalize_column c0)))
    as Hcells by (by rewrite Hd, cells_downcast).
  split_and!; [done| |done].
  rewrite <- Hcells. apply Forall_forall. intros x.
  apply replace_empty_not_empty.
Qed.

Lemma province_replace_redundant_witness :
  ∃ d c, steps_1_to_3 plain listings = Ok d ∧
    columns d !! "province" = Some c ∧
    cells (col_replace_empty c) = cells c ∧
    Forall (λ x, x ≠ Text []) (cells c) ∧
    col_replace_empty c = downcast c.
Proof.
  eexists _, _. split; [vm_compute; reflexivity|].
  split; [vm_compute; reflexivity|].
  eapply (province_replace_redundant plain listings).
  - vm_compute. reflexivity.
  - vm_compute. reflexivity.
Defined.

(** The dtype changes where the rows left by step 2 have no province at
    all: the text column of two nulls becomes a float64 column. *)
Example province_replace_changes_dtype :
  col_of "province" (steps_1_to_3 plain blank_provinces)
    = Some (ObjCol [None; None]) ∧
  col_replace_empty (ObjCol [None; None]) = NumCol [nan; nan] ∧
  col_of "province" (steps_1_to_4 plain blank_provinces) = Some (NumCol []).
Proof. vm_compute. done. Qed.

(** X14: every row of the output has a province: the column is there and none
    of its cells is null or the empty string. *)
Theorem output_has_province (R : runtime)
    (df out : DataFrame) :
  clean_immo_data R df = Ok out →
  ∃ c, columns out !! "province" = Some c ∧
    ∀ i x, cells c !! i = Some x → cell_isna x = false ∧ x ≠ Text [].
Proof.
  intros (c & Hc & Hall)%output_province_notna. exists c. split; [done|].
  intros i x Hx. by apply (proj1 (Forall_lookup _ _) Hall i).
Qed.

Lemma output_has_province_witness :
  ∃ out, clean_immo_data plain listings = Ok out ∧
  ∃ c, columns out !! "province" = Some c ∧
    ∀ i x, cells c !! i = Some x → cell_isna x = false ∧ x ≠ Text [].
Proof.
  eexists. split; [vm_compute; reflexivity|].
  apply (output_has_province plain listings). vm_compute. reflexivity.
Defined.

(** ** Steps 6 and 7 *)



(** X16: [remove_outliers] keeps the value of a series that has one number:
    both quartiles fall on that number, the interquartile range is zero and
    the two bounds collapse onto it. *)
Theorem remove_outliers_single (x : float) :
  finite x → remove_outliers [x] = [x].
Proof.
  intros Hx. rewrite remove_outliers_eq.
  destruct (iqr_bounds_single x Hx) as [Hl Hu].
  destruct (same_number_leb _ _ Hl Hx) as [Hlo _].
  destruct (same_number_leb _ _ Hu Hx) as [_ Hhi].
  assert (Series.between (iqr_bounds [x]).1 (iqr_bounds [x]).2 x = true) as Hb.
  { unfold Series.between. by rewrite Hlo, Hhi. }
  cbn [fmap list_fmap]. by rewrite Hb.
Qed.

Lemma remove_outliers_single_witness :
  finite 250000 ∧ remove_outliers [250000%float] = [250000%float].
Proof.
  split; [split; vm_compute; reflexivity|].
  apply (remove_outliers_single 250000). split; vm_compute; reflexivity.
Defined.
